(** * Trajectory optimisation for a 2-D rocket landing: model and properties

    A shallow embedding of [backend/rocket_optimizer.py] (vehicle constants,
    dynamics, RK4 transcription, problem assembly, initial guess, solve) and
    of [backend/app.py] (request validation, the /api/optimize handler,
    trajectory extraction and landing metrics).

    Numbers.  Python floats and CasADi symbolic expressions are read as real
    numbers: a CasADi expression denotes a real function of the decision
    variables, and [R] is the type of every numeric quantity below.  Rounding,
    infinities and NaN are outside this model.

    Exceptions.  Python code that may raise returns a [result]; the exception
    carries its class and its message. *)

From Stdlib Require Import Reals Lra Lia List String.
From stdpp Require Import gmap strings.
Import ListNotations.

Set Warnings "-register-all".

Open Scope R_scope.

(** ** Python exceptions and results *)

Inductive exn_class :=
| TypeError | AttributeError | ValueError | KeyError | IndexError | RuntimeError.

Record exn := mkExn { exn_class_of : exn_class; exn_msg : string }.

Inductive result (A : Type) :=
| Ok (a : A)
| Raise (e : exn).
Arguments Ok {A} a.
Arguments Raise {A} e.

Definition rbind {A B} (m : result A) (k : A -> result B) : result B :=
  match m with
  | Ok a => k a
  | Raise e => Raise e
  end.

Notation "'let*' x ':=' m 'in' k" := (rbind m (fun x => k))
  (at level 10, x name, m at level 100, k at level 200).

(** ** State and control vectors *)

(** The 7-vector [vertcat(x, y, vx, vy, theta, omega, m)].  The same shape is
    used for a state and for its time derivative. *)
Record State := mkState {
  s_x : R; s_y : R; s_vx : R; s_vy : R; s_theta : R; s_omega : R; s_m : R
}.

(** The 4-vector [vertcat(T_main, delta, T_rcs_l, T_rcs_r)]. *)
Record Control := mkControl {
  u_T_main : R; u_delta : R; u_T_rcs_left : R; u_T_rcs_right : R
}.

(** Elementwise sum and scalar multiple of 7-vectors, as CasADi's [+] and [*]
    on a column. *)
Definition vadd (a b : State) : State :=
  mkState (s_x a + s_x b) (s_y a + s_y b) (s_vx a + s_vx b) (s_vy a + s_vy b)
          (s_theta a + s_theta b) (s_omega a + s_omega b) (s_m a + s_m b).

Definition vscale (c : R) (a : State) : State :=
  mkState (c * s_x a) (c * s_y a) (c * s_vx a) (c * s_vy a)
          (c * s_theta a) (c * s_omega a) (c * s_m a).

Declare Scope vec_scope.
Delimit Scope vec_scope with vec.
Infix "+v" := vadd (at level 50, left associativity) : vec_scope.
Infix "*v" := vscale (at level 40, left associativity) : vec_scope.
Open Scope vec_scope.

(** ** class Rocket *)

Record Rocket := mkRocket {
  Isp_main : R;
  Isp_rcs : R;
  dry_mass : R;
  propellant_mass : R;
  wet_mass : R;
  max_thrust_main : R;
  min_thrust_main : R;
  max_thrust_rcs : R;
  max_gimbal_angle : R
}.

(** [Rocket.__init__] *)
Definition Rocket_init : Rocket :=
  let Isp_main := 282 in
  let Isp_rcs := 200 in
  let dry_mass := 22000 in
  let propellant_mass := 6000 in
  let wet_mass := dry_mass + propellant_mass in
  let max_thrust_main := 845000 in
  let min_thrust_main := 0 * max_thrust_main in
  let max_thrust_rcs := 5000 in
  let max_gimbal_angle := 15 * PI / 180 in
  mkRocket Isp_main Isp_rcs dry_mass propellant_mass wet_mass
           max_thrust_main min_thrust_main max_thrust_rcs max_gimbal_angle.

(** ** class RocketLanding2D: construction *)

(** The value bound to [custom_initial_conditions]: [None] or a dictionary. *)
Inductive pyobj :=
| PyNone
| PyDict (d : gmap string R).

Record RocketLanding2D := mkRocketLanding2D {
  rocket : Rocket;
  x0 : State;
  g : R;
  T : R;
  N : nat;
  dt : R
}.

(** [dict.get(key, default)] *)
Definition dict_get (d : gmap string R) (key : string) (dflt : R) : R :=
  default dflt (d !! key).

(** [setup_initial_conditions(self, custom_initial_conditions)]: the initial
    state vector, or the exception of [.get] on a non-dictionary. *)
Definition setup_initial_conditions (self_rocket : Rocket)
    (custom_initial_conditions : pyobj) : result State :=
  match custom_initial_conditions with
  | PyNone =>
      Raise (mkExn AttributeError "'NoneType' object has no attribute 'get'")
  | PyDict d =>
      let x0 := dict_get d "horizontal_position" 0.0 in
      let y0 := dict_get d "vertical_position" 1000.0 in
      let vx0 := dict_get d "horizontal_speed" 0.0 in
      let vy0 := dict_get d "vertical_speed" 0.0 in
      let theta0 := dict_get d "theta" 0.0 in
      let omega0 := 0 in
      let mass0 := wet_mass self_rocket in
      Ok (mkState x0 y0 vx0 vy0 theta0 omega0 mass0)
  end.

(** [RocketLanding2D.__init__(self, rocket, custom_initial_conditions=None)].
    An argument is [None] here when the call does not pass it: [rocket] has
    no default, so a call without it fails to bind; [custom_initial_conditions]
    then takes its default, Python's [None].  The placeholder fields [f] and
    [x0 = None] that the constructor sets before it overwrites them are not
    kept. *)
Definition RocketLanding2D_init (arg_rocket : option Rocket)
    (arg_custom_initial_conditions : option pyobj) : result RocketLanding2D :=
  match arg_rocket with
  | None =>
      Raise (mkExn TypeError
        "RocketLanding2D.__init__() missing 1 required positional argument: 'rocket'")
  | Some rocket =>
      let custom_initial_conditions :=
        match arg_custom_initial_conditions with
        | Some v => v
        | None => PyNone
        end in
      let g := 9.81 in
      let T := 20.0 in
      let N := 100%nat in
      let dt := T / INR N in
      let* x0 := setup_initial_conditions rocket custom_initial_conditions in
      Ok (mkRocketLanding2D rocket x0 g T N dt)
  end.

(** ** setup_dynamics: the function f(state, control) *)

Definition dynamics (self : RocketLanding2D) (state : State) (control : Control)
    : State :=
  let vx := s_vx state in
  let vy := s_vy state in
  let theta := s_theta state in
  let omega := s_omega state in
  let m := s_m state in
  let T_main := u_T_main control in
  let delta := u_delta control in
  let T_rcs_left := u_T_rcs_left control in
  let T_rcs_right := u_T_rcs_right control in
  let Fx_main := T_main * sin delta in
  let Fy_main := T_main * cos delta in
  let Fx_total := Fx_main * cos theta - Fy_main * sin theta in
  let Fy_total := Fx_main * sin theta + Fy_main * cos theta in
  let Fx_rcs := (T_rcs_right - T_rcs_left) * cos theta in
  let Fy_rcs := (T_rcs_right - T_rcs_left) * sin theta in
  let Fx_total := Fx_total + Fx_rcs in
  let Fy_total := Fy_total + Fy_rcs in
  let ax := Fx_total / m in
  let ay := Fy_total / m - g self in
  let L_rcs := 5.0 in
  let torque := (T_rcs_right + T_rcs_left) * L_rcs in
  let L_gimbal := 10.0 in
  let torque := torque + T_main * sin delta * L_gimbal in
  let I := m * 15.0 ^ 2 in
  let alpha := torque / I in
  let mdot := - (T_main / (Isp_main (rocket self) * g self) +
                 (T_rcs_left + T_rcs_right) / (Isp_rcs (rocket self) * g self)) in
  let xdot := vx in
  let ydot := vy in
  let vxdot := ax in
  let vydot := ay in
  let thetadot := omega in
  let omegadot := alpha in
  mkState xdot ydot vxdot vydot thetadot omegadot mdot.

(** ** The Opti problem: decision variables, constraints, objective *)

(** One scalar decision variable: entry [row, col] of the 7 x (N+1) matrix [X]
    or of the 4 x N matrix [U]. *)
Inductive var :=
| XVar (row col : nat)
| UVar (row col : nat).

Definition var_eqb (v w : var) : bool :=
  match v, w with
  | XVar r c, XVar r' c' => Nat.eqb r r' && Nat.eqb c c'
  | UVar r c, UVar r' c' => Nat.eqb r r' && Nat.eqb c c'
  | _, _ => false
  end.

(** A value for every decision variable: a candidate point, an initial guess,
    a solution or an iterate of the solver. *)
Definition Assignment := var -> R.

(** [X[:, k]] and [U[:, k]] at a point. *)
Definition col_X (a : Assignment) (k : nat) : State :=
  mkState (a (XVar 0 k)) (a (XVar 1 k)) (a (XVar 2 k)) (a (XVar 3 k))
          (a (XVar 4 k)) (a (XVar 5 k)) (a (XVar 6 k)).

Definition col_U (a : Assignment) (k : nat) : Control :=
  mkControl (a (UVar 0 k)) (a (UVar 1 k)) (a (UVar 2 k)) (a (UVar 3 k)).

(** [X[r, :]] and [U[r, :]] at a point, over the declared number of columns. *)
Definition row_X (a : Assignment) (r ncols : nat) : list R :=
  map (fun k => a (XVar r k)) (seq 0 ncols).

Definition row_U (a : Assignment) (r ncols : nat) : list R :=
  map (fun k => a (UVar r k)) (seq 0 ncols).

(** What [opti.subject_to] receives: a vector equality, a bound on every entry
    of a row, or a scalar inequality. *)
Inductive Constraint :=
| CEqVec (lhs rhs : Assignment -> State)
| CRowGe (lhs : Assignment -> list R) (bound : R)
| CRowLe (lhs : Assignment -> list R) (bound : R)
| CLe (lhs : Assignment -> R) (bound : R).

Definition holds (a : Assignment) (c : Constraint) : Prop :=
  match c with
  | CEqVec lhs rhs => lhs a = rhs a
  | CRowGe lhs bound => Forall (fun v => v >= bound) (lhs a)
  | CRowLe lhs bound => Forall (fun v => v <= bound) (lhs a)
  | CLe lhs bound => lhs a <= bound
  end.

Record Opti := mkOpti {
  constraints : list Constraint;
  objective : Assignment -> R;
  solver_name : string;
  max_iter : nat
}.

Definition feasible (opti : Opti) (a : Assignment) : Prop :=
  Forall (holds a) (constraints opti).

(** CasADi's [sum2] of a row. *)
Definition sum2 (row : list R) : R := fold_right Rplus 0 row.

Definition sq_each (row : list R) : list R := map (fun v => v ^ 2) row.

(** [setup_optimization(self)].  [X] has N+1 columns, so the column [-1] of
    the landing constraints and of the fuel cost is column [N]. *)
Definition setup_optimization (self : RocketLanding2D) : Opti :=
  let f := dynamics self in
  let X := col_X in
  let U := col_U in
  let initial := [CEqVec (fun a => X a 0%nat) (fun _ => x0 self)] in
  let dyn :=
    map (fun k =>
      CEqVec (fun a => X a (k + 1)%nat)
             (fun a =>
                let k1 := f (X a k) (U a k) in
                let k2 := f (X a k +v (dt self / 2) *v k1) (U a k) in
                let k3 := f (X a k +v (dt self / 2) *v k2) (U a k) in
                let k4 := f (X a k +v dt self *v k3) (U a k) in
                let x_next :=
                  X a k +v (dt self / 6) *v (k1 +v 2 *v k2 +v 2 *v k3 +v k4) in
                x_next))
      (seq 0 (N self)) in
  let ctrl :=
    [ CRowGe (fun a => row_U a 0 (N self)) (min_thrust_main (rocket self));
      CRowLe (fun a => row_U a 0 (N self)) (max_thrust_main (rocket self));
      CRowGe (fun a => row_U a 1 (N self)) (- max_gimbal_angle (rocket self));
      CRowLe (fun a => row_U a 1 (N self)) (max_gimbal_angle (rocket self));
      CRowGe (fun a => row_U a 2 (N self)) 0;
      CRowLe (fun a => row_U a 2 (N self)) (max_thrust_rcs (rocket self));
      CRowGe (fun a => row_U a 3 (N self)) 0;
      CRowLe (fun a => row_U a 3 (N self)) (max_thrust_rcs (rocket self)) ] in
  let state :=
    [ CRowGe (fun a => row_X a 6 (N self + 1)) (dry_mass (rocket self));
      CRowGe (fun a => row_X a 1 (N self + 1)) 0 ] in
  let landing_tolerance := 10.0 in
  let landing :=
    [ CLe (fun a => a (XVar 0 (N self)) ^ 2) (landing_tolerance ^ 2);
      CLe (fun a => a (XVar 1 (N self))) 5.0;
      CLe (fun a => a (XVar 2 (N self)) ^ 2 + a (XVar 3 (N self)) ^ 2) (1.0 ^ 2);
      CLe (fun a => a (XVar 4 (N self)) ^ 2) ((0.1 * PI / 180) ^ 2);
      CLe (fun a => a (XVar 5 (N self)) ^ 2) (0.01 ^ 2) ] in
  let fuel_cost := fun a : Assignment => - a (XVar 6 (N self)) in
  let control_effort := fun a : Assignment =>
    sum2 (sq_each (row_U a 0 (N self))) * 1e-8 +
    sum2 (sq_each (row_U a 1 (N self))) * 1e-3 in
  let attitude_penalty := fun a : Assignment =>
    sum2 (sq_each (row_X a 4 (N self + 1))) * 10 in
  mkOpti (initial ++ dyn ++ ctrl ++ state ++ landing)
         (fun a => fuel_cost a + control_effort a + attitude_penalty a)
         "ipopt" 2000.

(** ** Effects: console output and calls to the external solver *)

(** A line written by [print].  The formatted lines keep the numbers they
    print instead of their decimal rendering. *)
Inductive output :=
| OutText (s : string)
| OutFinalPosition (x y : R)
| OutFinalVelocity (vx vy : R)
| OutLandingError (err : R).

Inductive event :=
| EvPrint (o : output)
| EvConstruct (custom_conditions : gmap string R)
| EvSolverCall (opti : Opti) (guess : Assignment).

(** A computation that logs events and returns or raises. *)
Definition M (A : Type) : Type := list event * result A.

Definition ret {A} (a : A) : M A := ([], Ok a).

Definition lift {A} (r : result A) : M A := ([], r).

Definition tell (ev : event) : M unit := ([ev], Ok tt).

Definition mbind {A B} (m : M A) (k : A -> M B) : M B :=
  match m with
  | (log, Ok a) => let '(log', r) := k a in (log ++ log', r)
  | (log, Raise e) => (log, Raise e)
  end.

(** [try: body except Exception as e: handler(e)] *)
Definition try_except {A} (body : M A) (handler : exn -> M A) : M A :=
  match body with
  | (log, Ok a) => (log, Ok a)
  | (log, Raise e) => let '(log', r) := handler e in (log ++ log', r)
  end.

Notation "'let!' x ':=' m 'in' k" := (mbind m (fun x => k))
  (at level 10, x name, m at level 100, k at level 200).
Notation "m ';;' k" := (mbind m (fun _ => k))
  (at level 100, k at level 200, right associativity).

Definition print (o : output) : M unit := tell (EvPrint o).

(** ** Initial guess *)

(** [opti.set_initial(v, r)] for one scalar variable. *)
Definition set_initial (guess : Assignment) (v : var) (r : R) : Assignment :=
  fun w => if var_eqb v w then r else guess w.

(** [opti.set_initial(U[row, :], r)]: every entry of a row of [U]. *)
Definition set_initial_row_U (guess : Assignment) (row ncols : nat) (r : R)
    : Assignment :=
  fun w =>
    match w with
    | UVar row' col => if Nat.eqb row' row && Nat.ltb col ncols then r else guess w
    | XVar _ _ => guess w
    end.

(** The initial values set in [solve] before the solver is called.  A variable
    that is never set keeps CasADi's default, zero. *)
Definition initial_guess (self : RocketLanding2D) : Assignment :=
  let zero : Assignment := fun _ => 0 in
  let after_loop :=
    fold_left
      (fun guess i =>
         let guess := set_initial guess (XVar 0 i) (1000 * (1 - INR i / INR (N self))) in
         let guess := set_initial guess (XVar 1 i) (2000 * (1 - INR i / INR (N self))) in
         let guess := set_initial guess (XVar 6 i) (5000 - 1000 * INR i / INR (N self)) in
         guess)
      (seq 0 (N self + 1)) zero in
  set_initial_row_U after_loop 0 (N self) (max_thrust_main (rocket self) * 0.7).

(** ** The external solver and solve *)

(** What a call of [opti.solve()] does.  [Converged sol]: it returns a
    solution.  [NotConverged e iterate]: it raises [e] and [opti.debug] holds
    the last iterate.  [Fault e e_debug]: it raises [e] and reading
    [opti.debug] raises [e_debug]. *)
Inductive SolverOutcome :=
| Converged (sol : Assignment)
| NotConverged (e : exn) (iterate : Assignment)
| Fault (e e_debug : exn).

(** [sol.value(X)] and [sol.value(U)]: the numeric arrays, one entry per
    column. *)
Definition value_X (a : Assignment) (self : RocketLanding2D) : list State :=
  map (col_X a) (seq 0 (N self + 1)).

Definition value_U (a : Assignment) (self : RocketLanding2D) : list Control :=
  map (col_U a) (seq 0 (N self)).

(** Column [-1] of a numeric array. *)
Definition last_col {A} (arr : list A) : result A :=
  match rev arr with
  | c :: _ => Ok c
  | [] => Raise (mkExn IndexError "index -1 is out of bounds for axis 1 with size 0")
  end.

(** ** Numeric helpers of the handler *)

Definition Rltb (a b : R) : bool := if Rlt_dec a b then true else false.

(** [np.max] of a one-dimensional array. *)
Definition np_max (arr : list R) : result R :=
  match arr with
  | [] => Raise (mkExn ValueError
            "zero-size array to reduction operation maximum which has no identity")
  | v :: vs => Ok (fold_left Rmax vs v)
  end.

(** [np.sum] of a one-dimensional array. *)
Definition np_sum (arr : list R) : R := fold_right Rplus 0 arr.

(** [np.linspace(0, stop, num)] *)
Definition linspace0 (stop : R) (num : nat) : list R :=
  map (fun i => INR i * (stop / INR (num - 1))) (seq 0 num).

(** ** Parsed JSON and the Python operations the handler applies to it *)

Inductive json :=
| JNull
| JBool (b : bool)
| JNum (r : R)
| JStr (s : string)
| JArr (l : list json)
| JObj (m : gmap string json).

(** Truth value of a parsed body, as in [if not data]. *)
Definition truthy (v : json) : bool :=
  match v with
  | JNull => false
  | JBool b => b
  | JNum r => if Req_dec_T r 0 then false else true
  | JStr s => negb (String.eqb s "")
  | JArr l => match l with [] => false | _ => true end
  | JObj m => negb (bool_decide (m = ∅))
  end.

(** [data.get(key, default)] *)
Definition py_get (data : json) (key : string) (dflt : json) : result json :=
  match data with
  | JObj m => Ok (default dflt (m !! key))
  | _ => Raise (mkExn AttributeError "object has no attribute 'get'")
  end.

(** [field in container] *)
Definition py_contains (container : json) (field : string) : result bool :=
  match container with
  | JObj m => Ok (bool_decide (is_Some (m !! field)))
  | JArr l =>
      Ok (existsb (fun v => match v with JStr s => String.eqb s field | _ => false end) l)
  | JStr s =>
      Ok (match String.index 0 field s with Some _ => true | None => false end)
  | _ => Raise (mkExn TypeError "argument is not iterable")
  end.

(** [container[field]] with a string [field] *)
Definition py_getitem (container : json) (field : string) : result json :=
  match container with
  | JObj m =>
      match m !! field with
      | Some v => Ok v
      | None => Raise (mkExn KeyError field)
      end
  | JArr _ => Raise (mkExn TypeError "list indices must be integers or slices, not str")
  | JStr _ => Raise (mkExn TypeError "string indices must be integers, not 'str'")
  | _ => Raise (mkExn TypeError "object is not subscriptable")
  end.

(** ** Responses *)

Record Trajectory := mkTrajectory {
  tr_time : list R;
  tr_horizontal_position : list R;
  tr_vertical_position : list R;
  tr_horizontal_velocity : list R;
  tr_vertical_velocity : list R;
  tr_thrust_horizontal : list R;
  tr_thrust_vertical : list R
}.

Record Metrics := mkMetrics {
  landing_error : R;
  fuel_consumption : R;
  flight_time : R;
  max_velocity : R;
  max_thrust : R;
  final_position : R * R;
  final_velocity : R * R;
  success : bool
}.

Record InitialConditions := mkInitialConditions {
  ic_horizontal_position : R;
  ic_vertical_position : R;
  ic_horizontal_speed : R;
  ic_vertical_speed : R
}.

Inductive Body :=
| BError (error : string) (details : option string)
| BSuccess (success : bool) (trajectory : Trajectory) (metrics : Metrics)
           (initial_conditions : InitialConditions).

Record Response := mkResponse { status : nat; body : Body }.

(** [extract_trajectory_data(x_opt, u_opt, rocket)] *)
Definition extract_trajectory_data (x_opt : list State) (u_opt : list Control)
    (rocket : RocketLanding2D) : Trajectory :=
  let time := linspace0 (T rocket) (N rocket + 1) in
  mkTrajectory time
    (map s_x x_opt) (map s_y x_opt) (map s_vx x_opt) (map s_vy x_opt)
    (map u_T_main u_opt) (map u_delta u_opt).

(** [calculate_metrics(x_opt, u_opt, rocket, x0, y0, vx0, vy0)] *)
Definition calculate_metrics (x_opt : list State) (u_opt : list Control)
    (rocket : RocketLanding2D) (x0 y0 vx0 vy0 : R) : result Metrics :=
  let* last := last_col x_opt in
  let final_x := s_x last in
  let final_y := s_y last in
  let final_vx := s_vx last in
  let final_vy := s_vy last in
  let landing_error := sqrt (final_x ^ 2 + final_y ^ 2) in
  let fuel_consumption :=
    np_sum (map (fun u => sqrt (u_T_main u ^ 2 + u_delta u ^ 2)) u_opt) in
  let flight_time := T rocket in
  let velocities := map (fun s => sqrt (s_vx s ^ 2 + s_vy s ^ 2)) x_opt in
  let* max_velocity := np_max velocities in
  let thrusts := map (fun u => sqrt (u_T_main u ^ 2 + u_delta u ^ 2)) u_opt in
  let* max_thrust := np_max thrusts in
  Ok (mkMetrics landing_error fuel_consumption flight_time max_velocity max_thrust
        (final_x, final_y) (final_vx, final_vy) (Rltb landing_error 1.0)).

(** ** solve and the /api/optimize handler *)

Section WithExternals.

(** The NLP solver behind [opti.solve()]: an opaque collaborator that maps
    the assembled problem and the initial guess to an outcome. *)
Variable ipopt : Opti -> Assignment -> SolverOutcome.

(** Python's [float] on a string: the parsed number, or [None] where
    [float] raises [ValueError]. *)
Variable str_to_float : string -> option R.

(** [opti.solve()]: the solution, or the exception it raises. *)
Definition opti_solve (outcome : SolverOutcome) : result Assignment :=
  match outcome with
  | Converged sol => Ok sol
  | NotConverged e _ => Raise e
  | Fault e _ => Raise e
  end.

(** [opti.debug.value(...)]: the values the solver holds when it stops. *)
Definition opti_debug (outcome : SolverOutcome) : result Assignment :=
  match outcome with
  | Converged sol => Ok sol
  | NotConverged _ iterate => Ok iterate
  | Fault _ e_debug => Raise e_debug
  end.

(** [RocketLanding2D.solve(self)] *)
Definition solve (self : RocketLanding2D) : M (list State * list Control) :=
  print (OutText "Setting up optimization problem...") ;;
  let opti := setup_optimization self in
  let guess := initial_guess self in
  print (OutText "Solving optimization problem...") ;;
  tell (EvSolverCall opti guess) ;;
  let outcome := ipopt opti guess in
  try_except
    (let! sol := lift (opti_solve outcome) in
     let x_opt := value_X sol self in
     let u_opt := value_U sol self in
     print (OutText "Optimization successful!") ;;
     let! last := lift (last_col x_opt) in
     print (OutFinalPosition (s_x last) (s_y last)) ;;
     print (OutFinalVelocity (s_vx last) (s_vy last)) ;;
     print (OutLandingError (sqrt (s_x last ^ 2 + s_y last ^ 2))) ;;
     ret (x_opt, u_opt))
    (fun e =>
       print (OutText ("Optimization failed: " +:+ exn_msg e)) ;;
       let! iterate := lift (opti_debug outcome) in
       let x_opt := value_X iterate self in
       let u_opt := value_U iterate self in
       ret (x_opt, u_opt)).

(** [float(v)] on a parsed JSON value *)
Definition py_float (v : json) : result R :=
  match v with
  | JNum r => Ok r
  | JBool b => Ok (if b then 1 else 0)
  | JStr s =>
      match str_to_float s with
      | Some r => Ok r
      | None => Raise (mkExn ValueError ("could not convert string to float: " +:+ s))
      end
  | _ => Raise (mkExn TypeError "float() argument must be a string or a real number")
  end.

Definition required_fields : list string :=
  ["vertical_position"; "horizontal_position"; "vertical_speed"; "horizontal_speed"].

(** The loop over [required_fields]: the first field that is not in
    [initial_conditions], if any. *)
Fixpoint first_missing (fields : list string) (initial_conditions : json)
    : result (option string) :=
  match fields with
  | [] => Ok None
  | field :: rest =>
      let* present := py_contains initial_conditions field in
      if present then first_missing rest initial_conditions else Ok (Some field)
  end.

Definition jsonify (code : nat) (b : Body) : M Response := ret (mkResponse code b).

(** The body of the outer [try] of [optimize_trajectory].  [engine] is false
    when the import of [RocketLanding2D] failed and the name is [None]. *)
Definition optimize_trajectory_try (engine : bool) (data : json) : M Response :=
  if negb (truthy data) then
    jsonify 400 (BError "No JSON data provided" None)
  else
  let! initial_conditions := lift (py_get data "initial_conditions" (JObj ∅)) in
  let! missing := lift (first_missing required_fields initial_conditions) in
  match missing with
  | Some field => jsonify 400 (BError ("Missing required field: " +:+ field) None)
  | None =>
  let! x0 := lift (let* v := py_getitem initial_conditions "horizontal_position" in py_float v) in
  let! y0 := lift (let* v := py_getitem initial_conditions "vertical_position" in py_float v) in
  let! vx0 := lift (let* v := py_getitem initial_conditions "horizontal_speed" in py_float v) in
  let! vy0 := lift (let* v := py_getitem initial_conditions "vertical_speed" in py_float v) in
  if Rltb y0 0 || Rltb 2000 y0 then
    jsonify 400 (BError "Vertical position must be between 0 and 2000 m" None)
  else if Rltb 1500 (Rabs x0) then
    jsonify 400 (BError "Horizontal position must be between -1500 and 1500 m" None)
  else if Rltb 50 (Rabs vx0) || Rltb 50 (Rabs vy0) then
    jsonify 400 (BError "Velocity components must be between -50 and 50 m/s" None)
  else if negb engine then
    jsonify 500 (BError "Optimization engine not available" None)
  else
  let custom_conditions : gmap string R :=
    <["vertical_speed" := vy0]> (<["horizontal_speed" := vx0]>
      (<["vertical_position" := y0]> (<["horizontal_position" := x0]> ∅))) in
  tell (EvConstruct custom_conditions) ;;
  let! rocket := lift (RocketLanding2D_init None (Some (PyDict custom_conditions))) in
  try_except
    (let! x_u := solve rocket in
     let x_opt := fst x_u in
     let u_opt := snd x_u in
     let trajectory := extract_trajectory_data x_opt u_opt rocket in
     let! metrics := lift (calculate_metrics x_opt u_opt rocket x0 y0 vx0 vy0) in
     jsonify 200
       (BSuccess true trajectory metrics (mkInitialConditions x0 y0 vx0 vy0)))
    (fun opt_error =>
       jsonify 500
         (BError ("Optimization failed: " +:+ exn_msg opt_error)
            (Some "The optimization problem could not be solved with the given initial conditions")))
  end.

(** [optimize_trajectory()]: the response and the events of one request whose
    parsed body is [data]. *)
Definition optimize_trajectory (engine : bool) (data : json) : list event * Response :=
  match optimize_trajectory_try engine data with
  | (log, Ok response) => (log, response)
  | (log, Raise e) =>
      match exn_class_of e with
      | ValueError =>
          (log, mkResponse 400 (BError ("Invalid number format: " +:+ exn_msg e) None))
      | _ =>
          (log, mkResponse 500 (BError ("Unexpected error: " +:+ exn_msg e) None))
      end
  end.

End WithExternals.

(** ** Reference definitions used in the statements *)

(** The sum of [f k] over [0 <= k < n]. *)
Fixpoint sigma (f : nat -> R) (n : nat) : R :=
  match n with
  | O => 0
  | S n' => sigma f n' + f n'
  end.

(** The classical fourth-order Runge-Kutta step of length [h] for the field
    [f], with the control [u] held over the step. *)
Definition RK4 (f : State -> Control -> State) (h : R) (x : State) (u : Control)
    : State :=
  let k1 := f x u in
  let k2 := f (x +v (h / 2) *v k1) u in
  let k3 := f (x +v (h / 2) *v k2) u in
  let k4 := f (x +v h *v k3) u in
  x +v (h / 6) *v (k1 +v 2 *v k2 +v 2 *v k3 +v k4).

(** The initial guess in closed form, for [n] steps and a main-thrust seed. *)
Definition fixed_guess (n : nat) (seed : R) (v : var) : R :=
  match v with
  | XVar 0 i => if Nat.leb i n then 1000 * (1 - INR i / INR n) else 0
  | XVar 1 i => if Nat.leb i n then 2000 * (1 - INR i / INR n) else 0
  | XVar 6 i => if Nat.leb i n then 5000 - 1000 * INR i / INR n else 0
  | UVar 0 k => if Nat.ltb k n then seed else 0
  | _ => 0
  end.

(** The problem object that [RocketLanding2D(Rocket(), {})] builds. *)
Definition default_landing : RocketLanding2D :=
  mkRocketLanding2D Rocket_init (mkState 0.0 1000.0 0.0 0.0 0.0 0 (wet_mass Rocket_init))
                    9.81 20.0 100 (20.0 / INR 100).

(** Sample collaborators and requests, for evaluating the model. *)

Definition zero_point : Assignment := fun _ => 0.

(** A solver that converges at once, and one that stops on its iteration
    limit holding the same point. *)
Definition ipopt_converging : Opti -> Assignment -> SolverOutcome :=
  fun _ _ => Converged zero_point.

Definition ipopt_stalling : Opti -> Assignment -> SolverOutcome :=
  fun _ _ =>
    NotConverged
      (mkExn RuntimeError "solver return_status is 'Maximum_Iterations_Exceeded'")
      zero_point.

Definition no_str_to_float : string -> option R := fun _ => None.

(** The parsed body [{initial_conditions: {vertical_position: vp,
    horizontal_position: hp, vertical_speed: vs, horizontal_speed: hs}}]. *)
Definition request_with (vp hp vs hs : json) : json :=
  JObj (<["initial_conditions" :=
            JObj (<["horizontal_speed" := hs]> (<["vertical_speed" := vs]>
                   (<["horizontal_position" := hp]> (<["vertical_position" := vp]> ∅))))]> ∅).

(** ** The read-only endpoint /api/parameters/defaults *)

Record Bounds := mkBounds { b_min : R; b_max : R }.

Record Constraints := mkConstraints {
  c_vertical_position : Bounds;
  c_horizontal_position : Bounds;
  c_vertical_speed : Bounds;
  c_horizontal_speed : Bounds
}.

Record DefaultParameters := mkDefaultParameters {
  dp_initial_conditions : InitialConditions;
  dp_constraints : Constraints
}.

(** [get_default_parameters()]: the status and the body. *)
Definition get_default_parameters : nat * DefaultParameters :=
  (200%nat,
   mkDefaultParameters
     (mkInitialConditions 0.0 1000.0 0.0 0.0)
     (mkConstraints (mkBounds 0 2000) (mkBounds (-1500) 1500)
                    (mkBounds (-50) 50) (mkBounds (-50) 50))).

Definition within (b : Bounds) (v : R) : Prop := b_min b <= v <= b_max b.

(** The number of calls to the solver in a log. *)
Definition solver_calls (log : list event) : nat :=
  length (List.filter (fun ev => match ev with EvSolverCall _ _ => true | _ => false end) log).

(** A one-step problem close to the ground, a point that is feasible for it
    (one step of free fall from 1 m with 1 m/s upwards), and a solver that
    returns this point. *)
Definition short_landing : RocketLanding2D :=
  mkRocketLanding2D Rocket_init (mkState 0 1 0 1 0 0 28000) 9.81 0.2 1 0.2.

Definition short_point : Assignment :=
  fun v =>
    match v with
    | XVar 1 0 => 1
    | XVar 3 0 => 1
    | XVar 6 0 => 28000
    | XVar 1 1 => 1.0038
    | XVar 3 1 => -0.962
    | XVar 6 1 => 28000
    | _ => 0
    end.

Definition ipopt_short : Opti -> Assignment -> SolverOutcome :=
  fun _ _ => Converged short_point.

(** Membership of one constraint in the list [setup_optimization] builds. *)
Ltac in_constraints :=
  unfold setup_optimization; cbn [constraints];
  rewrite ?in_app_iff; cbn [In]; auto 30.

(** * Properties *)

(** ** Construction and initial conditions *)

Lemma init_with_dict (r : Rocket) (d : gmap string R) :
  RocketLanding2D_init (Some r) (Some (PyDict d)) =
  Ok (mkRocketLanding2D r
        (mkState (dict_get d "horizontal_position" 0) (dict_get d "vertical_position" 1000)
                 (dict_get d "horizontal_speed" 0) (dict_get d "vertical_speed" 0)
                 (dict_get d "theta" 0) 0 (wet_mass r))
        9.81 20.0 100 (20.0 / INR 100)).
Proof.
  unfold RocketLanding2D_init, setup_initial_conditions, rbind.
  repeat f_equal; lra.
Qed.

Lemma init_default_landing :
  RocketLanding2D_init (Some Rocket_init) (Some (PyDict ∅)) = Ok default_landing.
Proof.
  rewrite init_with_dict. unfold default_landing, dict_get.
  rewrite !lookup_empty. simpl. repeat f_equal; lra.
Qed.

Lemma dt_value (r : Rocket) (s : State) (gv : R) :
  dt (mkRocketLanding2D r s gv 20.0 100 (20.0 / INR 100)) = 0.2.
Proof.
  cbn [dt]. rewrite INR_IZR_INZ. change (Z.of_nat 100) with 100%Z. lra.
Qed.

(** C10.  Constructing [RocketLanding2D] with a rocket and without
    [custom_initial_conditions] (or with an explicit [None]) raises
    [AttributeError], from the [.get] in [setup_initial_conditions]; as soon
    as a dictionary is passed the construction succeeds, and with the empty
    dictionary the initial state is the documented defaults
    (0, 1000, 0, 0, 0, 0, wet mass). *)
Theorem init_without_conditions_raises :
  forall r : Rocket,
    (exists msg,
        RocketLanding2D_init (Some r) None = Raise (mkExn AttributeError msg)) /\
    (exists msg,
        RocketLanding2D_init (Some r) (Some PyNone) = Raise (mkExn AttributeError msg)) /\
    (forall d, exists self,
        RocketLanding2D_init (Some r) (Some (PyDict d)) = Ok self) /\
    (exists self,
        RocketLanding2D_init (Some r) (Some (PyDict ∅)) = Ok self /\
        x0 self = mkState 0 1000 0 0 0 0 (wet_mass r)).
Proof.
  intro r. repeat split.
  - eexists. reflexivity.
  - eexists. reflexivity.
  - intro d. eexists. apply init_with_dict.
  - eexists. split; [apply init_with_dict|].
    simpl. unfold dict_get. rewrite !lookup_empty. reflexivity.
Qed.

(** C7.  For every dictionary of custom initial conditions, the assembled
    problem contains the vector equality [X[:, 0] == x0], where [x0] is
    (horizontal_position, vertical_position, horizontal_speed, vertical_speed,
    theta, 0, wet mass) read from the dictionary with the defaults 0, 1000, 0,
    0 and 0. *)
Theorem initial_state_constraint :
  forall (r : Rocket) (d : gmap string R),
  exists self,
    RocketLanding2D_init (Some r) (Some (PyDict d)) = Ok self /\
    In (CEqVec (fun a => col_X a 0)
               (fun _ => mkState (default 0 (d !! "horizontal_position"))
                                 (default 1000 (d !! "vertical_position"))
                                 (default 0 (d !! "horizontal_speed"))
                                 (default 0 (d !! "vertical_speed"))
                                 (default 0 (d !! "theta"))
                                 0
                                 (wet_mass r)))
       (constraints (setup_optimization self)).
Proof.
  intros r d. eexists. split; [apply init_with_dict|].
  unfold setup_optimization. cbn [constraints x0].
  apply in_or_app. left. left. reflexivity.
Qed.

(** ** Transcription *)

Lemma dynamics_constraint_in (self : RocketLanding2D) (k : nat) :
  (k < N self)%nat ->
  In (CEqVec (fun a => col_X a (k + 1))
             (fun a => RK4 (dynamics self) (dt self) (col_X a k) (col_U a k)))
     (constraints (setup_optimization self)).
Proof.
  intro Hk. unfold setup_optimization. cbn [constraints].
  apply in_or_app. right. apply in_or_app. left.
  apply in_map_iff. exists k. split; [reflexivity|].
  apply in_seq. lia.
Qed.

(** A feasible point satisfies the recurrence at every step. *)
Lemma feasible_rk4 (self : RocketLanding2D) (a : Assignment) (k : nat) :
  feasible (setup_optimization self) a ->
  (k < N self)%nat ->
  col_X a (k + 1) = RK4 (dynamics self) (dt self) (col_X a k) (col_U a k).
Proof.
  intros Hf Hk. unfold feasible in Hf.
  rewrite List.Forall_forall in Hf.
  apply (Hf _ (dynamics_constraint_in self k Hk)).
Qed.

(** C4.  For every step [k] in [0, N) the assembled problem contains the
    equality [X[:, k+1] == RK4(X[:, k], U[:, k])]: the classical RK4 step of
    the dynamics with the control held over the four stages, and with step
    length [dt = T / N]. *)
Theorem rk4_constraints :
  forall (r : Rocket) (d : gmap string R) (k : nat),
    (k < 100)%nat ->
    exists self,
      RocketLanding2D_init (Some r) (Some (PyDict d)) = Ok self /\
      N self = 100%nat /\
      dt self = T self / INR (N self) /\
      In (CEqVec (fun a => col_X a (k + 1))
                 (fun a =>
                    let f := dynamics self in
                    let x_k := col_X a k in
                    let u_k := col_U a k in
                    let k1 := f x_k u_k in
                    let k2 := f (x_k +v (dt self / 2) *v k1) u_k in
                    let k3 := f (x_k +v (dt self / 2) *v k2) u_k in
                    let k4 := f (x_k +v dt self *v k3) u_k in
                    x_k +v (dt self / 6) *v (k1 +v 2 *v k2 +v 2 *v k3 +v k4)))
         (constraints (setup_optimization self)).
Proof.
  intros r d k Hk. eexists. split; [apply init_with_dict|].
  split; [reflexivity|]. split; [reflexivity|].
  apply (dynamics_constraint_in _ k). exact Hk.
Qed.

Lemma rk4_constraints_witness :
  (3 < 100)%nat /\
  exists self,
    RocketLanding2D_init (Some Rocket_init) (Some (PyDict ∅)) = Ok self /\
    N self = 100%nat /\
    dt self = T self / INR (N self) /\
    In (CEqVec (fun a => col_X a (3 + 1))
               (fun a =>
                  let f := dynamics self in
                  let x_k := col_X a 3 in
                  let u_k := col_U a 3 in
                  let k1 := f x_k u_k in
                  let k2 := f (x_k +v (dt self / 2) *v k1) u_k in
                  let k3 := f (x_k +v (dt self / 2) *v k2) u_k in
                  let k4 := f (x_k +v dt self *v k3) u_k in
                  x_k +v (dt self / 6) *v (k1 +v 2 *v k2 +v 2 *v k3 +v k4)))
       (constraints (setup_optimization self)).
Proof.
  split; [lia|]. apply (rk4_constraints Rocket_init ∅ 3). lia.
Defined.

(** ** Objective *)

Lemma sum2_sq_each_seq (f : nat -> R) (n : nat) :
  sum2 (sq_each (map f (seq 0 n))) = sigma (fun k => f k ^ 2) n.
Proof.
  unfold sum2, sq_each.
  induction n as [|n IH].
  - reflexivity.
  - rewrite seq_S, !map_app, fold_right_app. cbn [map fold_right sigma Nat.add].
    rewrite <- IH. clear IH.
    generalize (map (fun v : R => v ^ 2) (map f (seq 0 n))) as l.
    generalize (f n ^ 2) as c. intros c l.
    induction l as [|h l IHl]; cbn [fold_right]; [lra|rewrite IHl; lra].
Qed.

(** C6.  The objective of the assembled problem is
    [-m[N] + 1e-8 * sum T_main[k]^2 + 1e-3 * sum delta[k]^2 + 10 * sum theta[k]^2],
    the two control sums over the N control samples, the attitude sum over
    the N+1 state samples; there is no other term. *)
Theorem objective_formula :
  forall (self : RocketLanding2D) (a : Assignment),
    objective (setup_optimization self) a =
    - s_m (col_X a (N self))
    + 1e-8 * sigma (fun k => u_T_main (col_U a k) ^ 2) (N self)
    + 1e-3 * sigma (fun k => u_delta (col_U a k) ^ 2) (N self)
    + 10 * sigma (fun k => s_theta (col_X a k) ^ 2) (N self + 1).
Proof.
  intros self a. unfold setup_optimization. cbn [objective].
  unfold row_U, row_X. rewrite !sum2_sq_each_seq.
  cbn [s_m s_theta u_T_main u_delta col_X col_U]. lra.
Qed.

(** ** Dynamics: mass flow *)

Lemma mdot_formula (self : RocketLanding2D) (s : State) (u : Control) :
  s_m (dynamics self s u) =
  - (u_T_main u / (Isp_main (rocket self) * g self) +
     (u_T_rcs_left u + u_T_rcs_right u) / (Isp_rcs (rocket self) * g self)).
Proof. reflexivity. Qed.

Lemma div_pos_nonneg (a b : R) : 0 <= a -> 0 < b -> 0 <= a / b.
Proof.
  intros Ha Hb. unfold Rdiv. apply Rmult_le_pos; [exact Ha|].
  left. apply Rinv_0_lt_compat. exact Hb.
Qed.

Lemma div_pos_pos (a b : R) : 0 < a -> 0 < b -> 0 < a / b.
Proof.
  intros Ha Hb. unfold Rdiv. apply Rmult_lt_0_compat; [exact Ha|].
  apply Rinv_0_lt_compat. exact Hb.
Qed.

(** C5 (as the code has it).  The mass component of [f(state, control)] is
    [-(T_main/(Isp_main*g) + (T_rcs_l + T_rcs_r)/(Isp_rcs*g))] for every state
    and control.  With positive specific impulses and gravity it is strictly
    negative whenever the three thrusts are nonnegative and one of them is not
    zero. *)
Theorem mass_flow :
  forall (self : RocketLanding2D) (s : State) (u : Control),
    s_m (dynamics self s u) =
    - (u_T_main u / (Isp_main (rocket self) * g self) +
       (u_T_rcs_left u + u_T_rcs_right u) / (Isp_rcs (rocket self) * g self)) /\
    (0 < Isp_main (rocket self) -> 0 < Isp_rcs (rocket self) -> 0 < g self ->
     0 <= u_T_main u -> 0 <= u_T_rcs_left u -> 0 <= u_T_rcs_right u ->
     u_T_main u <> 0 \/ u_T_rcs_left u <> 0 \/ u_T_rcs_right u <> 0 ->
     s_m (dynamics self s u) < 0).
Proof.
  intros self s u. split; [apply mdot_formula|].
  intros Him Hir Hg Hm Hl Hr Hnz. rewrite mdot_formula.
  assert (Hdm : 0 < Isp_main (rocket self) * g self) by (apply Rmult_lt_0_compat; assumption).
  assert (Hdr : 0 < Isp_rcs (rocket self) * g self) by (apply Rmult_lt_0_compat; assumption).
  assert (Ha : 0 <= u_T_main u / (Isp_main (rocket self) * g self))
    by (apply div_pos_nonneg; assumption).
  assert (Hb : 0 <= (u_T_rcs_left u + u_T_rcs_right u) / (Isp_rcs (rocket self) * g self))
    by (apply div_pos_nonneg; [lra|assumption]).
  destruct (Rle_lt_or_eq_dec _ _ Hm) as [Hpos|Hzero].
  - pose proof (div_pos_pos _ _ Hpos Hdm). lra.
  - assert (Hs : 0 < u_T_rcs_left u + u_T_rcs_right u).
    { destruct Hnz as [H|[H|H]]; lra. }
    pose proof (div_pos_pos _ _ Hs Hdr). lra.
Qed.

Lemma mass_flow_witness :
  s_m (dynamics default_landing (mkState 0 1000 0 0 0 0 28000) (mkControl 1000 0 0 0)) < 0.
Proof.
  apply (mass_flow default_landing (mkState 0 1000 0 0 0 0 28000) (mkControl 1000 0 0 0));
    simpl; lra.
Defined.

(** C5 as stated fails for a control outside the thrust bounds: with
    [T_main = -1] and no RCS thrust, a thrust is nonzero and the mass
    derivative is positive. *)
Lemma mass_flow_negative_thrust :
  let u := mkControl (-1) 0 0 0 in
  u_T_main u <> 0 /\
  ~ s_m (dynamics default_landing (mkState 0 1000 0 0 0 0 28000) u) < 0.
Proof.
  cbv zeta. split; [simpl; lra|].
  rewrite mdot_formula. simpl.
  assert (H : 0 < 1 / (282 * 9.81)) by (apply div_pos_pos; lra).
  assert (H0 : (0 + 0) / (200 * 9.81) = 0) by (unfold Rdiv; lra).
  assert (H1 : -1 / (282 * 9.81) = - (1 / (282 * 9.81))) by (unfold Rdiv; lra).
  lra.
Qed.

(** ** Landing metrics *)

Lemma Rltb_true_iff (a b : R) : Rltb a b = true <-> a < b.
Proof.
  unfold Rltb. destruct (Rlt_dec a b) as [H|H]; split; intro H'; try assumption;
    try reflexivity; try discriminate. contradiction.
Qed.

Lemma Rltb_false_iff (a b : R) : Rltb a b = false <-> ~ a < b.
Proof.
  unfold Rltb. destruct (Rlt_dec a b) as [H|H]; split; intro H'; try assumption;
    try reflexivity; try discriminate. contradiction.
Qed.

Lemma last_col_snoc {A} (front : list A) (c : A) : last_col (front ++ [c]) = Ok c.
Proof. unfold last_col. rewrite rev_app_distr. reflexivity. Qed.

Lemma nonempty_snoc {A} (l : list A) : l <> [] -> exists front c, l = front ++ [c].
Proof.
  intro H. destruct (exists_last H) as (front & c & ->). eauto.
Qed.

Lemma np_max_nonempty (l : list R) : l <> [] -> exists v, np_max l = Ok v.
Proof. destruct l; [congruence|]. intros _. eexists. reflexivity. Qed.

(** C9.  On every solution array with at least one state column and one
    control column, [calculate_metrics] returns metrics whose [landing_error]
    is [sqrt(x_N^2 + y_N^2)] for the last state column, and whose [success] is
    true exactly when [landing_error < 1.0]. *)
Theorem metrics_landing_error :
  forall (x_opt : list State) (u_opt : list Control) (rocket : RocketLanding2D)
         (x0 y0 vx0 vy0 : R),
    x_opt <> [] -> u_opt <> [] ->
    exists front last m,
      x_opt = front ++ [last] /\
      calculate_metrics x_opt u_opt rocket x0 y0 vx0 vy0 = Ok m /\
      landing_error m = sqrt (s_x last ^ 2 + s_y last ^ 2) /\
      (success m = true <-> landing_error m < 1.0).
Proof.
  intros x_opt u_opt rocket x0 y0 vx0 vy0 Hx Hu.
  destruct (nonempty_snoc x_opt Hx) as (front & last & ->).
  destruct (np_max_nonempty
              (map (fun s => sqrt (s_vx s ^ 2 + s_vy s ^ 2)) (front ++ [last]))) as [mv Hmv].
  { destruct front; discriminate. }
  destruct (np_max_nonempty
              (map (fun u => sqrt (u_T_main u ^ 2 + u_delta u ^ 2)) u_opt)) as [mt Hmt].
  { destruct u_opt; [congruence|discriminate]. }
  exists front, last. eexists. split; [reflexivity|].
  unfold calculate_metrics. rewrite last_col_snoc. cbn [rbind].
  rewrite Hmv. cbn [rbind]. rewrite Hmt. cbn [rbind].
  split; [reflexivity|]. cbn [landing_error success].
  split; [reflexivity|]. apply Rltb_true_iff.
Qed.

Lemma metrics_landing_error_witness :
  exists front last m,
    [mkState 3 4 0 0 0 0 22000] = front ++ [last] /\
    calculate_metrics [mkState 3 4 0 0 0 0 22000] [mkControl 0 0 0 0]
                      default_landing 0 1000 0 0 = Ok m /\
    landing_error m = sqrt (s_x last ^ 2 + s_y last ^ 2) /\
    (success m = true <-> landing_error m < 1.0).
Proof.
  apply (metrics_landing_error [mkState 3 4 0 0 0 0 22000] [mkControl 0 0 0 0]
           default_landing 0 1000 0 0); discriminate.
Defined.

(** ** Initial guess *)

Lemma existsb_eqb_seq (i n : nat) :
  existsb (Nat.eqb i) (seq 0 n) = Nat.ltb i n.
Proof.
  destruct (Nat.ltb_spec i n) as [H|H].
  - apply existsb_exists. exists i. split; [apply in_seq; lia|apply Nat.eqb_refl].
  - destruct (existsb (Nat.eqb i) (seq 0 n)) eqn:E; [|reflexivity].
    apply existsb_exists in E. destruct E as (j & Hj & Heq).
    apply Nat.eqb_eq in Heq. subst j. apply in_seq in Hj. lia.
Qed.

(** The three [set_initial] calls of one pass of the loop in [solve]. *)
Lemma guess_loop_spec (n : nat) (l : list nat) :
  forall (guess : Assignment) (v : var),
    fold_left
      (fun guess i =>
         let guess := set_initial guess (XVar 0 i) (1000 * (1 - INR i / INR n)) in
         let guess := set_initial guess (XVar 1 i) (2000 * (1 - INR i / INR n)) in
         let guess := set_initial guess (XVar 6 i) (5000 - 1000 * INR i / INR n) in
         guess) l guess v =
    match v with
    | XVar 0 i => if existsb (Nat.eqb i) l then 1000 * (1 - INR i / INR n) else guess v
    | XVar 1 i => if existsb (Nat.eqb i) l then 2000 * (1 - INR i / INR n) else guess v
    | XVar 6 i => if existsb (Nat.eqb i) l then 5000 - 1000 * INR i / INR n else guess v
    | _ => guess v
    end.
Proof.
  induction l as [|j l IH]; intros guess v.
  - cbn [fold_left existsb].
    destruct v as [[|[|[|[|[|[|[|row]]]]]]] col|row col]; reflexivity.
  - cbn [fold_left]. rewrite IH. cbn [existsb]. unfold set_initial.
    destruct v as [[|[|[|[|[|[|[|row]]]]]]] col|row col]; cbn [var_eqb Nat.eqb andb];
      try reflexivity;
      rewrite ?andb_false_r; cbn [andb];
      rewrite (Nat.eqb_sym j col);
      destruct (Nat.eqb col j) eqn:E; cbn [orb];
      try (apply Nat.eqb_eq in E; subst col);
      destruct (existsb (Nat.eqb _) l); reflexivity.
Qed.

Lemma initial_guess_closed_form (self : RocketLanding2D) (v : var) :
  initial_guess self v =
  fixed_guess (N self) (max_thrust_main (rocket self) * 0.7) v.
Proof.
  unfold initial_guess, set_initial_row_U, fixed_guess.
  destruct v as [row col|row col].
  - rewrite guess_loop_spec. rewrite existsb_eqb_seq.
    replace (Nat.ltb col (N self + 1)) with (Nat.leb col (N self)).
    + destruct row as [|[|[|[|[|[|[|row]]]]]]]; try reflexivity;
        destruct (Nat.leb col (N self)); reflexivity.
    + destruct (Nat.leb_spec col (N self)), (Nat.ltb_spec col (N self + 1));
        try reflexivity; lia.
  - destruct row as [|row]; cbn [Nat.eqb andb].
    + destruct (Nat.ltb col (N self)); [reflexivity|].
      rewrite guess_loop_spec. reflexivity.
    + rewrite guess_loop_spec. reflexivity.
Qed.

(** C3 (as the code has it).  For every supplied initial condition the guess
    handed to the solver is the same fixed one: over the N+1 = 101 samples the
    x channel runs linearly from 1000 to 0, the y channel from 2000 to 0 and
    the mass from 5000 to 4000; the main thrust is seeded at 0.7 times
    [max_thrust_main] at each of the N steps; every other decision variable
    is zero.  The supplied initial values do not enter it. *)
Theorem initial_guess_fixed :
  forall (r : Rocket) (d : gmap string R),
  exists self,
    RocketLanding2D_init (Some r) (Some (PyDict d)) = Ok self /\
    (forall v, initial_guess self v = fixed_guess 100 (max_thrust_main r * 0.7) v) /\
    initial_guess self (XVar 0 0) = 1000 /\ initial_guess self (XVar 0 100) = 0 /\
    initial_guess self (XVar 1 0) = 2000 /\ initial_guess self (XVar 1 100) = 0 /\
    initial_guess self (XVar 6 0) = 5000 /\ initial_guess self (XVar 6 100) = 4000.
Proof.
  intros r d. eexists. split; [apply init_with_dict|].
  split; [intro v; apply initial_guess_closed_form|].
  rewrite !initial_guess_closed_form. cbn [fixed_guess N Nat.leb].
  rewrite !INR_IZR_INZ. change (Z.of_nat 100) with 100%Z. change (Z.of_nat 0) with 0%Z.
  repeat split; lra.
Qed.

(** C3 as stated fails on the default request: the supplied initial state is
    x = 0, y = 1000, mass = 28000, and the guess starts at x = 1000, y = 2000,
    mass = 5000. *)
Lemma initial_guess_ignores_initial_state :
  RocketLanding2D_init (Some Rocket_init) (Some (PyDict ∅)) = Ok default_landing /\
  initial_guess default_landing (XVar 0 0) <> s_x (x0 default_landing) /\
  initial_guess default_landing (XVar 1 0) <> s_y (x0 default_landing) /\
  initial_guess default_landing (XVar 6 0) <> s_m (x0 default_landing).
Proof.
  split; [apply init_default_landing|].
  rewrite !initial_guess_closed_form.
  cbn [fixed_guess N Nat.leb default_landing x0 s_x s_y s_m wet_mass Rocket_init].
  rewrite !INR_IZR_INZ. change (Z.of_nat 100) with 100%Z. change (Z.of_nat 0) with 0%Z.
  repeat split; lra.
Qed.

(** ** solve *)

Lemma last_col_value_X (a : Assignment) (self : RocketLanding2D) :
  last_col (value_X a self) = Ok (col_X a (N self)).
Proof.
  unfold value_X. rewrite Nat.add_1_r, seq_S, map_app. apply last_col_snoc.
Qed.

Lemma solve_not_converged (ipopt : Opti -> Assignment -> SolverOutcome)
    (self : RocketLanding2D) (e : exn) (iterate : Assignment) :
  ipopt (setup_optimization self) (initial_guess self) = NotConverged e iterate ->
  solve ipopt self =
  ([EvPrint (OutText "Setting up optimization problem...");
    EvPrint (OutText "Solving optimization problem...");
    EvSolverCall (setup_optimization self) (initial_guess self);
    EvPrint (OutText ("Optimization failed: " +:+ exn_msg e))],
   Ok (value_X iterate self, value_U iterate self)).
Proof.
  intro H. unfold solve. rewrite H. reflexivity.
Qed.

Lemma solve_converged (ipopt : Opti -> Assignment -> SolverOutcome)
    (self : RocketLanding2D) (sol : Assignment) :
  ipopt (setup_optimization self) (initial_guess self) = Converged sol ->
  snd (solve ipopt self) = Ok (value_X sol self, value_U sol self).
Proof.
  intro H. unfold solve. rewrite H.
  cbn [opti_solve lift mbind print tell try_except app snd fst].
  rewrite last_col_value_X. reflexivity.
Qed.

(** C2 (as the code has it).  When the solver stops without convergence,
    [solve] returns the last iterate as State and Control arrays of the shape
    of a converged solution (N+1 state columns, N control columns) and prints
    "Optimization failed: ..." on the console.  The returned value carries no
    failure indication: it is the value a converged run with the same numbers
    returns. *)
Theorem solve_returns_last_iterate :
  forall (ipopt : Opti -> Assignment -> SolverOutcome) (self : RocketLanding2D)
         (e : exn) (iterate : Assignment),
    ipopt (setup_optimization self) (initial_guess self) = NotConverged e iterate ->
    snd (solve ipopt self) = Ok (value_X iterate self, value_U iterate self) /\
    length (value_X iterate self) = (N self + 1)%nat /\
    length (value_U iterate self) = N self /\
    In (EvPrint (OutText ("Optimization failed: " +:+ exn_msg e))) (fst (solve ipopt self)) /\
    (forall ipopt' : Opti -> Assignment -> SolverOutcome,
        ipopt' (setup_optimization self) (initial_guess self) = Converged iterate ->
        snd (solve ipopt' self) = snd (solve ipopt self)).
Proof.
  intros ipopt self e iterate H.
  rewrite (solve_not_converged _ _ _ _ H). cbn [fst snd].
  split; [reflexivity|].
  split; [unfold value_X; rewrite length_map, length_seq; reflexivity|].
  split; [unfold value_U; rewrite length_map, length_seq; reflexivity|].
  split; [cbn [In]; tauto|].
  intros ipopt' H'. apply solve_converged. exact H'.
Qed.

Lemma solve_returns_last_iterate_witness :
  snd (solve ipopt_stalling default_landing) =
    Ok (value_X zero_point default_landing, value_U zero_point default_landing) /\
  length (value_X zero_point default_landing) = (N default_landing + 1)%nat /\
  length (value_U zero_point default_landing) = N default_landing /\
  In (EvPrint (OutText ("Optimization failed: " +:+
        "solver return_status is 'Maximum_Iterations_Exceeded'")))
     (fst (solve ipopt_stalling default_landing)) /\
  (forall ipopt' : Opti -> Assignment -> SolverOutcome,
      ipopt' (setup_optimization default_landing) (initial_guess default_landing) =
        Converged zero_point ->
      snd (solve ipopt' default_landing) = snd (solve ipopt_stalling default_landing)).
Proof.
  apply (solve_returns_last_iterate ipopt_stalling default_landing
           (mkExn RuntimeError "solver return_status is 'Maximum_Iterations_Exceeded'")
           zero_point).
  reflexivity.
Defined.

(** C2 as stated fails: a run in which the solver does not converge and a run
    in which it converges to the same numbers return the same value, so the
    result of [solve] does not tell the caller which of the two happened. *)
Lemma solve_failure_not_in_result :
  (exists e, opti_solve (ipopt_stalling (setup_optimization default_landing)
                                        (initial_guess default_landing)) = Raise e) /\
  opti_solve (ipopt_converging (setup_optimization default_landing)
                               (initial_guess default_landing)) = Ok zero_point /\
  snd (solve ipopt_stalling default_landing) = snd (solve ipopt_converging default_landing).
Proof.
  split; [eexists; reflexivity|]. split; [reflexivity|].
  rewrite (solve_converged ipopt_converging default_landing zero_point eq_refl).
  rewrite (solve_not_converged ipopt_stalling default_landing _ zero_point eq_refl).
  reflexivity.
Qed.

(** ** The /api/optimize handler *)

Lemma Rabs_le_Rltb (b x : R) : Rabs x <= b -> Rltb b (Rabs x) = false.
Proof. intro H. apply Rltb_false_iff. lra. Qed.

Lemma truthy_request_with (vp hp vs hs : json) : truthy (request_with vp hp vs hs) = true.
Proof.
  unfold request_with, truthy. apply negb_true_iff, bool_decide_eq_false.
  apply insert_non_empty.
Qed.

Lemma py_get_request_with (vp hp vs hs : json) :
  py_get (request_with vp hp vs hs) "initial_conditions" (JObj ∅) =
  Ok (JObj (<["horizontal_speed" := hs]> (<["vertical_speed" := vs]>
             (<["horizontal_position" := hp]> (<["vertical_position" := vp]> ∅))))).
Proof. reflexivity. Qed.

Lemma getitem_request_with (vp hp vs hs : json) :
  let ic := JObj (<["horizontal_speed" := hs]> (<["vertical_speed" := vs]>
                   (<["horizontal_position" := hp]> (<["vertical_position" := vp]> ∅)))) in
  py_getitem ic "horizontal_position" = Ok hp /\
  py_getitem ic "vertical_position" = Ok vp /\
  py_getitem ic "horizontal_speed" = Ok hs /\
  py_getitem ic "vertical_speed" = Ok vs /\
  first_missing required_fields ic = Ok None.
Proof. cbv zeta. repeat split; reflexivity. Qed.

Lemma valid_request_response :
  forall (ipopt : Opti -> Assignment -> SolverOutcome)
         (str_to_float : string -> option R) (x0 y0 vx0 vy0 : R),
    0 <= y0 <= 2000 -> Rabs x0 <= 1500 -> Rabs vx0 <= 50 -> Rabs vy0 <= 50 ->
    optimize_trajectory ipopt str_to_float true
      (request_with (JNum y0) (JNum x0) (JNum vy0) (JNum vx0)) =
    ([EvConstruct (<["vertical_speed" := vy0]> (<["horizontal_speed" := vx0]>
                    (<["vertical_position" := y0]> (<["horizontal_position" := x0]> ∅))))],
     mkResponse 500
       (BError ("Unexpected error: " +:+
                "RocketLanding2D.__init__() missing 1 required positional argument: 'rocket'")
               None)).
Proof.
  intros ipopt stf x0 y0 vx0 vy0 Hy Hx Hvx Hvy.
  unfold optimize_trajectory, optimize_trajectory_try.
  rewrite truthy_request_with. cbn [negb].
  rewrite py_get_request_with. cbn [lift mbind app].
  destruct (getitem_request_with (JNum y0) (JNum x0) (JNum vy0) (JNum vx0))
    as (Gx & Gy & Gvx & Gvy & Gm).
  rewrite Gm, Gx, Gy, Gvx, Gvy.
  cbn [mbind app rbind py_float lift].
  assert (H1 : Rltb y0 0 = false) by (apply Rltb_false_iff; lra).
  assert (H2 : Rltb 2000 y0 = false) by (apply Rltb_false_iff; lra).
  rewrite H1, H2, (Rabs_le_Rltb _ _ Hx), (Rabs_le_Rltb _ _ Hvx), (Rabs_le_Rltb _ _ Hvy).
  reflexivity.
Qed.

(** C1, on the code.  A request whose four fields are numbers within the
    published bounds passes validation, and the handler then calls
    [RocketLanding2D(custom_initial_conditions=...)] without the required
    [rocket] argument: the call raises [TypeError], the solver is never called
    and the answer is 500 "Unexpected error", with the engine available and
    whatever the solver would have done. *)
Theorem valid_request_answered_500 :
  forall (ipopt : Opti -> Assignment -> SolverOutcome)
         (str_to_float : string -> option R) (x0 y0 vx0 vy0 : R),
    0 <= y0 <= 2000 -> Rabs x0 <= 1500 -> Rabs vx0 <= 50 -> Rabs vy0 <= 50 ->
    optimize_trajectory ipopt str_to_float true
      (request_with (JNum y0) (JNum x0) (JNum vy0) (JNum vx0)) =
    ([EvConstruct (<["vertical_speed" := vy0]> (<["horizontal_speed" := vx0]>
                    (<["vertical_position" := y0]> (<["horizontal_position" := x0]> ∅))))],
     mkResponse 500
       (BError ("Unexpected error: " +:+
                "RocketLanding2D.__init__() missing 1 required positional argument: 'rocket'")
               None)).
Proof.
  intros ipopt stf x0 y0 vx0 vy0 Hy Hx Hvx Hvy.
  unfold optimize_trajectory, optimize_trajectory_try.
  rewrite truthy_request_with. cbn [negb].
  rewrite py_get_request_with. cbn [lift mbind app].
  destruct (getitem_request_with (JNum y0) (JNum x0) (JNum vy0) (JNum vx0))
    as (Gx & Gy & Gvx & Gvy & Gm).
  rewrite Gm, Gx, Gy, Gvx, Gvy.
  cbn [mbind app rbind py_float lift].
  assert (H1 : Rltb y0 0 = false) by (apply Rltb_false_iff; lra).
  assert (H2 : Rltb 2000 y0 = false) by (apply Rltb_false_iff; lra).
  rewrite H1, H2, (Rabs_le_Rltb _ _ Hx), (Rabs_le_Rltb _ _ Hvx), (Rabs_le_Rltb _ _ Hvy).
  reflexivity.
Qed.

Lemma valid_request_answered_500_witness :
  optimize_trajectory ipopt_converging no_str_to_float true
    (request_with (JNum 1000) (JNum 0) (JNum 0) (JNum 0)) =
  ([EvConstruct (<["vertical_speed" := 0]> (<["horizontal_speed" := 0]>
                  (<["vertical_position" := 1000]> (<["horizontal_position" := 0]> ∅))))],
   mkResponse 500
     (BError ("Unexpected error: " +:+
              "RocketLanding2D.__init__() missing 1 required positional argument: 'rocket'")
             None)).
Proof.
  apply (valid_request_answered_500 ipopt_converging no_str_to_float 0 1000 0 0);
    try rewrite Rabs_R0; lra.
Defined.

(** Validation, where it works: a request whose four fields are numbers, one
    of them outside the published bounds, is answered 400 and nothing is
    constructed or solved. *)
Lemma out_of_bounds_rejected (ipopt : Opti -> Assignment -> SolverOutcome)
    (str_to_float : string -> option R) (engine : bool) (x0 y0 vx0 vy0 : R) :
  y0 < 0 \/ 2000 < y0 \/ 1500 < Rabs x0 \/ 50 < Rabs vx0 \/ 50 < Rabs vy0 ->
  exists msg,
    optimize_trajectory ipopt str_to_float engine
      (request_with (JNum y0) (JNum x0) (JNum vy0) (JNum vx0)) =
    ([], mkResponse 400 (BError msg None)).
Proof.
  intro H.
  unfold optimize_trajectory, optimize_trajectory_try.
  rewrite truthy_request_with. cbn [negb].
  rewrite py_get_request_with. cbn [lift mbind app].
  destruct (getitem_request_with (JNum y0) (JNum x0) (JNum vy0) (JNum vx0))
    as (Gx & Gy & Gvx & Gvy & Gm).
  rewrite Gm, Gx, Gy, Gvx, Gvy.
  cbn [mbind app rbind py_float lift].
  destruct (Rltb y0 0) eqn:E1; [eexists; reflexivity|].
  destruct (Rltb 2000 y0) eqn:E2; [eexists; reflexivity|].
  destruct (Rltb 1500 (Rabs x0)) eqn:E3; [eexists; reflexivity|].
  destruct (Rltb 50 (Rabs vx0)) eqn:E4; [eexists; reflexivity|].
  destruct (Rltb 50 (Rabs vy0)) eqn:E5; [eexists; reflexivity|].
  apply Rltb_false_iff in E1, E2, E3, E4, E5.
  destruct H as [H|[H|[H|[H|H]]]]; contradiction.
Qed.

(** Scenario B of the tests: [vertical_position = -100] is answered 400 with
    the message that cites the vertical-position bound. *)
Lemma below_ground_rejected (ipopt : Opti -> Assignment -> SolverOutcome)
    (str_to_float : string -> option R) (engine : bool) :
  optimize_trajectory ipopt str_to_float engine
    (request_with (JNum (-100)) (JNum 0) (JNum 0) (JNum 0)) =
  ([], mkResponse 400 (BError "Vertical position must be between 0 and 2000 m" None)).
Proof.
  unfold optimize_trajectory, optimize_trajectory_try.
  rewrite truthy_request_with. cbn [negb].
  rewrite py_get_request_with. cbn [lift mbind app].
  destruct (getitem_request_with (JNum (-100)) (JNum 0) (JNum 0) (JNum 0))
    as (Gx & Gy & Gvx & Gvy & Gm).
  rewrite Gm, Gx, Gy, Gvx, Gvy.
  cbn [mbind app rbind py_float lift].
  assert (H1 : Rltb (-100) 0 = true) by (apply Rltb_true_iff; lra).
  rewrite H1. reflexivity.
Qed.

(** A field that is a string [float] cannot parse is answered 400, through
    the [ValueError] clause. *)
Lemma unparsable_string_rejected (ipopt : Opti -> Assignment -> SolverOutcome)
    (str_to_float : string -> option R) (engine : bool) (s : string) (vp vs hs : json) :
  str_to_float s = None ->
  optimize_trajectory ipopt str_to_float engine (request_with vp (JStr s) vs hs) =
  ([], mkResponse 400
         (BError ("Invalid number format: " +:+ ("could not convert string to float: " +:+ s))
                 None)).
Proof.
  intro H.
  unfold optimize_trajectory, optimize_trajectory_try.
  rewrite truthy_request_with. cbn [negb].
  rewrite py_get_request_with. cbn [lift mbind app].
  destruct (getitem_request_with vp (JStr s) vs hs) as (Gx & Gy & Gvx & Gvy & Gm).
  rewrite Gm, Gx.
  cbn [mbind app rbind py_float lift]. rewrite H. reflexivity.
Qed.

(** C8, on the code.  A request whose [vertical_position] is JSON [null] has a
    non-numeric field; [float(None)] raises [TypeError], which the
    [except ValueError] clause does not catch, and the answer is 500
    "Unexpected error" instead of 400.  Nothing is constructed or solved. *)
Theorem null_field_answered_500 :
  forall (ipopt : Opti -> Assignment -> SolverOutcome)
         (str_to_float : string -> option R) (engine : bool),
    optimize_trajectory ipopt str_to_float engine
      (request_with JNull (JNum 0) (JNum 0) (JNum 0)) =
    ([], mkResponse 500
           (BError ("Unexpected error: " +:+
                    "float() argument must be a string or a real number")
                   None)).
Proof.
  intros ipopt stf engine.
  unfold optimize_trajectory, optimize_trajectory_try.
  rewrite truthy_request_with. cbn [negb].
  rewrite py_get_request_with. cbn [lift mbind app].
  destruct (getitem_request_with JNull (JNum 0) (JNum 0) (JNum 0))
    as (Gx & Gy & Gvx & Gvy & Gm).
  rewrite Gm, Gx, Gy.
  reflexivity.
Qed.

(** * Further properties of the code *)

(** ** Dynamics *)

Lemma dynamics_zero_thrust (self : RocketLanding2D) (s : State) (delta : R) :
  dynamics self s (mkControl 0 delta 0 0) =
  mkState (s_vx s) (s_vy s) 0 (- g self) (s_omega s) 0 0.
Proof.
  unfold dynamics. cbn [s_vx s_vy s_theta s_omega s_m u_T_main u_delta u_T_rcs_left
                        u_T_rcs_right rocket g].
  f_equal; unfold Rdiv; ring.
Qed.

Lemma sin_cos_sq (x : R) : sin x * sin x + cos x * cos x = 1.
Proof. pose proof (sin2_cos2 x) as H. unfold Rsqr in H. exact H. Qed.

(** With equal RCS thrusts the force on the vehicle is the main thrust turned
    by gimbal and attitude: mass times the acceleration without gravity has
    norm [T_main], whatever the two angles. *)
Theorem main_thrust_norm :
  forall (self : RocketLanding2D) (s : State) (T_main delta t_rcs : R),
    s_m s <> 0 ->
    let f := dynamics self s (mkControl T_main delta t_rcs t_rcs) in
    (s_m s * s_vx f) ^ 2 + (s_m s * (s_vy f + g self)) ^ 2 = T_main ^ 2.
Proof.
  intros self s T_main delta t_rcs Hm. cbv zeta. unfold dynamics.
  cbn [s_vx s_vy s_theta s_omega s_m u_T_main u_delta u_T_rcs_left u_T_rcs_right].
  pose proof (sin_cos_sq delta) as Hd. pose proof (sin_cos_sq (s_theta s)) as Ht.
  set (sd := sin delta) in *. set (cd := cos delta) in *.
  set (st := sin (s_theta s)) in *. set (ct := cos (s_theta s)) in *.
  set (m := s_m s) in *.
  replace (T_main ^ 2) with
    (T_main ^ 2 * ((sd * sd + cd * cd) * (st * st + ct * ct)))
    by (rewrite Hd, Ht; ring).
  field. exact Hm.
Qed.

Lemma main_thrust_norm_witness :
  let f := dynamics default_landing (mkState 0 1000 0 0 0 0 28000)
                    (mkControl 300000 0 0 0) in
  (28000 * s_vx f) ^ 2 + (28000 * (s_vy f + 9.81)) ^ 2 = 300000 ^ 2.
Proof.
  apply (main_thrust_norm default_landing (mkState 0 1000 0 0 0 0 28000) 300000 0 0).
  simpl. lra.
Defined.

(** The two RCS thrusters add their torques: with positive mass and
    nonnegative RCS thrusts the angular acceleration is never below the one
    the gimbaled main engine gives alone, and the pair cannot turn the vehicle
    the other way. *)
Theorem rcs_torque_one_sided :
  forall (self : RocketLanding2D) (s : State) (u : Control),
    0 < s_m s -> 0 <= u_T_rcs_left u -> 0 <= u_T_rcs_right u ->
    s_omega (dynamics self s u) =
      (u_T_rcs_right u + u_T_rcs_left u) * 5 / (s_m s * 15 ^ 2) +
      u_T_main u * sin (u_delta u) * 10 / (s_m s * 15 ^ 2) /\
    u_T_main u * sin (u_delta u) * 10 / (s_m s * 15 ^ 2) <= s_omega (dynamics self s u).
Proof.
  intros self s u Hm Hl Hr.
  assert (Hden : 0 < s_m s * 15 ^ 2) by nra.
  assert (Heq : s_omega (dynamics self s u) =
      (u_T_rcs_right u + u_T_rcs_left u) * 5 / (s_m s * 15 ^ 2) +
      u_T_main u * sin (u_delta u) * 10 / (s_m s * 15 ^ 2)).
  { unfold dynamics. cbn [s_omega].
    replace 5.0 with 5 by lra. replace 10.0 with 10 by lra. replace 15.0 with 15 by lra.
    unfold Rdiv. ring. }
  split; [exact Heq|]. rewrite Heq.
  assert (H : 0 <= (u_T_rcs_right u + u_T_rcs_left u) * 5 / (s_m s * 15 ^ 2)).
  { apply div_pos_nonneg; [nra|exact Hden]. }
  lra.
Qed.

Lemma rcs_torque_one_sided_witness :
  0 * sin 0 * 10 / (28000 * 15 ^ 2) <=
  s_omega (dynamics default_landing (mkState 0 1000 0 0 0 0 28000) (mkControl 0 0 100 100)).
Proof.
  apply (rcs_torque_one_sided default_landing (mkState 0 1000 0 0 0 0 28000)
           (mkControl 0 0 100 100)); simpl; lra.
Defined.

(** ** One RK4 step of the dynamics *)

Lemma rk4_mass_euler :
  forall (self : RocketLanding2D) (h : R) (x : State) (u : Control),
    s_m (RK4 (dynamics self) h x u) = s_m x + h * s_m (dynamics self x u).
Proof.
  intros self h x u. unfold RK4. cbn [vadd vscale s_m].
  rewrite !mdot_formula.
  set (D := - (u_T_main u / (Isp_main (rocket self) * g self) +
               (u_T_rcs_left u + u_T_rcs_right u) / (Isp_rcs (rocket self) * g self))).
  field.
Qed.

(** The mass flow does not depend on the state, so the RK4 step moves the mass
    by exactly [h] times the mass flow of the step's control. *)
Theorem rk4_mass_step :
  forall (self : RocketLanding2D) (h : R) (x : State) (u : Control),
    s_m (RK4 (dynamics self) h x u) = s_m x + h * s_m (dynamics self x u).
Proof. exact rk4_mass_euler. Qed.

Lemma state_ext (a b : State) :
  s_x a = s_x b -> s_y a = s_y b -> s_vx a = s_vx b -> s_vy a = s_vy b ->
  s_theta a = s_theta b -> s_omega a = s_omega b -> s_m a = s_m b -> a = b.
Proof. destruct a, b. cbn. intros. subst. reflexivity. Qed.

Lemma rk4_zero_thrust :
  forall (self : RocketLanding2D) (h : R) (x : State) (delta : R),
    RK4 (dynamics self) h x (mkControl 0 delta 0 0) =
    mkState (s_x x + h * s_vx x)
            (s_y x + h * s_vy x - g self * h ^ 2 / 2)
            (s_vx x)
            (s_vy x - g self * h)
            (s_theta x + h * s_omega x)
            (s_omega x)
            (s_m x).
Proof.
  intros self h x delta. unfold RK4. rewrite !dynamics_zero_thrust.
  apply state_ext; cbn [vadd vscale s_x s_y s_vx s_vy s_theta s_omega s_m]; field.
Qed.


(** ** Feasible points of the assembled problem *)

Lemma feasible_holds (opti : Opti) (a : Assignment) (c : Constraint) :
  feasible opti a -> In c (constraints opti) -> holds a c.
Proof.
  unfold feasible. rewrite List.Forall_forall. intros H Hc. apply H. exact Hc.
Qed.

Lemma row_entry (P : R -> Prop) (f : nat -> R) (n k : nat) :
  Forall P (map f (seq 0 n)) -> (k < n)%nat -> P (f k).
Proof.
  rewrite List.Forall_forall. intros H Hk. apply H.
  apply in_map_iff. exists k. split; [reflexivity|]. apply in_seq. lia.
Qed.

Lemma feasible_bounds :
  forall (self : RocketLanding2D) (a : Assignment),
    feasible (setup_optimization self) a ->
    col_X a 0 = x0 self /\
    (forall k, (k < N self)%nat ->
       min_thrust_main (rocket self) <= a (UVar 0 k) <= max_thrust_main (rocket self) /\
       - max_gimbal_angle (rocket self) <= a (UVar 1 k) <= max_gimbal_angle (rocket self) /\
       0 <= a (UVar 2 k) <= max_thrust_rcs (rocket self) /\
       0 <= a (UVar 3 k) <= max_thrust_rcs (rocket self)) /\
    (forall k, (k <= N self)%nat ->
       dry_mass (rocket self) <= a (XVar 6 k) /\ 0 <= a (XVar 1 k)) /\
    a (XVar 0 (N self)) ^ 2 <= 10 ^ 2 /\
    a (XVar 1 (N self)) <= 5 /\
    a (XVar 2 (N self)) ^ 2 + a (XVar 3 (N self)) ^ 2 <= 1 /\
    a (XVar 4 (N self)) ^ 2 <= (0.1 * PI / 180) ^ 2 /\
    a (XVar 5 (N self)) ^ 2 <= 0.01 ^ 2.
Proof.
  intros self a Hf.
  split.
  { apply (feasible_holds _ _ (CEqVec (fun a => col_X a 0%nat) (fun _ => x0 self)) Hf).
    in_constraints. }
  split.
  { intros k Hk.
    pose proof (feasible_holds _ _
      (CRowGe (fun a => row_U a 0 (N self)) (min_thrust_main (rocket self))) Hf) as H1.
    pose proof (feasible_holds _ _
      (CRowLe (fun a => row_U a 0 (N self)) (max_thrust_main (rocket self))) Hf) as H2.
    pose proof (feasible_holds _ _
      (CRowGe (fun a => row_U a 1 (N self)) (- max_gimbal_angle (rocket self))) Hf) as H3.
    pose proof (feasible_holds _ _
      (CRowLe (fun a => row_U a 1 (N self)) (max_gimbal_angle (rocket self))) Hf) as H4.
    pose proof (feasible_holds _ _ (CRowGe (fun a => row_U a 2 (N self)) 0) Hf) as H5.
    pose proof (feasible_holds _ _
      (CRowLe (fun a => row_U a 2 (N self)) (max_thrust_rcs (rocket self))) Hf) as H6.
    pose proof (feasible_holds _ _ (CRowGe (fun a => row_U a 3 (N self)) 0) Hf) as H7.
    pose proof (feasible_holds _ _
      (CRowLe (fun a => row_U a 3 (N self)) (max_thrust_rcs (rocket self))) Hf) as H8.
    cbn [holds] in *. unfold row_U in *.
    pose proof (row_entry _ _ _ k (H1 ltac:(in_constraints)) Hk) as B1.
    pose proof (row_entry _ _ _ k (H2 ltac:(in_constraints)) Hk) as B2.
    pose proof (row_entry _ _ _ k (H3 ltac:(in_constraints)) Hk) as B3.
    pose proof (row_entry _ _ _ k (H4 ltac:(in_constraints)) Hk) as B4.
    pose proof (row_entry _ _ _ k (H5 ltac:(in_constraints)) Hk) as B5.
    pose proof (row_entry _ _ _ k (H6 ltac:(in_constraints)) Hk) as B6.
    pose proof (row_entry _ _ _ k (H7 ltac:(in_constraints)) Hk) as B7.
    pose proof (row_entry _ _ _ k (H8 ltac:(in_constraints)) Hk) as B8.
    cbv beta in *. lra. }
  split.
  { intros k Hk.
    pose proof (feasible_holds _ _
      (CRowGe (fun a => row_X a 6 (N self + 1)) (dry_mass (rocket self))) Hf) as H1.
    pose proof (feasible_holds _ _ (CRowGe (fun a => row_X a 1 (N self + 1)) 0) Hf) as H2.
    cbn [holds] in *. unfold row_X in *.
    pose proof (row_entry _ _ _ k (H1 ltac:(in_constraints)) ltac:(lia)) as B1.
    pose proof (row_entry _ _ _ k (H2 ltac:(in_constraints)) ltac:(lia)) as B2.
    cbv beta in *. lra. }
  pose proof (feasible_holds _ _
    (CLe (fun a => a (XVar 0 (N self)) ^ 2) (10.0 ^ 2)) Hf ltac:(in_constraints)) as L1.
  pose proof (feasible_holds _ _
    (CLe (fun a => a (XVar 1 (N self))) 5.0) Hf ltac:(in_constraints)) as L2.
  pose proof (feasible_holds _ _
    (CLe (fun a => a (XVar 2 (N self)) ^ 2 + a (XVar 3 (N self)) ^ 2) (1.0 ^ 2)) Hf
    ltac:(in_constraints)) as L3.
  pose proof (feasible_holds _ _
    (CLe (fun a => a (XVar 4 (N self)) ^ 2) ((0.1 * PI / 180) ^ 2)) Hf
    ltac:(in_constraints)) as L4.
  pose proof (feasible_holds _ _
    (CLe (fun a => a (XVar 5 (N self)) ^ 2) (0.01 ^ 2)) Hf ltac:(in_constraints)) as L5.
  cbn [holds] in L1, L2, L3, L4, L5.
  repeat split; try assumption; lra.
Qed.

(** Every feasible point of the assembled problem starts at the initial
    state, keeps each control inside its box at each of the N steps, keeps the
    mass at or above the dry mass and the height at or above the ground at
    each of the N+1 samples, and ends inside the landing tolerances. *)
Theorem feasible_point_bounds :
  forall (self : RocketLanding2D) (a : Assignment),
    feasible (setup_optimization self) a ->
    col_X a 0 = x0 self /\
    (forall k, (k < N self)%nat ->
       min_thrust_main (rocket self) <= a (UVar 0 k) <= max_thrust_main (rocket self) /\
       - max_gimbal_angle (rocket self) <= a (UVar 1 k) <= max_gimbal_angle (rocket self) /\
       0 <= a (UVar 2 k) <= max_thrust_rcs (rocket self) /\
       0 <= a (UVar 3 k) <= max_thrust_rcs (rocket self)) /\
    (forall k, (k <= N self)%nat ->
       dry_mass (rocket self) <= a (XVar 6 k) /\ 0 <= a (XVar 1 k)) /\
    a (XVar 0 (N self)) ^ 2 <= 10 ^ 2 /\
    a (XVar 1 (N self)) <= 5 /\
    a (XVar 2 (N self)) ^ 2 + a (XVar 3 (N self)) ^ 2 <= 1 /\
    a (XVar 4 (N self)) ^ 2 <= (0.1 * PI / 180) ^ 2 /\
    a (XVar 5 (N self)) ^ 2 <= 0.01 ^ 2.
Proof. exact feasible_bounds. Qed.

Lemma short_point_feasible : feasible (setup_optimization short_landing) short_point.
Proof.
  pose proof PI_RGT_0 as Hpi.
  unfold feasible, setup_optimization.
  cbn [constraints N short_landing seq map app Nat.add].
  repeat first [apply List.Forall_nil | apply List.Forall_cons]; cbn [holds].
  1: reflexivity.
  1: { change (col_X short_point 1 =
               RK4 (dynamics short_landing) 0.2 (mkState 0 1 0 1 0 0 28000)
                   (mkControl 0 0 0 0)).
       rewrite rk4_zero_thrust. unfold col_X, short_point.
       cbn [s_x s_y s_vx s_vy s_theta s_omega s_m g short_landing].
       f_equal; lra. }
  all: unfold row_U, row_X; cbn [seq map Nat.add];
    repeat first [apply List.Forall_nil | apply List.Forall_cons];
    unfold short_point, short_landing, Rocket_init;
    cbn [rocket min_thrust_main max_thrust_main max_gimbal_angle max_thrust_rcs dry_mass];
    cbv beta iota; nra.
Qed.

Lemma feasible_point_bounds_witness :
  col_X short_point 0 = x0 short_landing /\
  (forall k, (k < N short_landing)%nat ->
     min_thrust_main (rocket short_landing) <= short_point (UVar 0 k)
       <= max_thrust_main (rocket short_landing) /\
     - max_gimbal_angle (rocket short_landing) <= short_point (UVar 1 k)
       <= max_gimbal_angle (rocket short_landing) /\
     0 <= short_point (UVar 2 k) <= max_thrust_rcs (rocket short_landing) /\
     0 <= short_point (UVar 3 k) <= max_thrust_rcs (rocket short_landing)) /\
  (forall k, (k <= N short_landing)%nat ->
     dry_mass (rocket short_landing) <= short_point (XVar 6 k) /\
     0 <= short_point (XVar 1 k)) /\
  short_point (XVar 0 (N short_landing)) ^ 2 <= 10 ^ 2 /\
  short_point (XVar 1 (N short_landing)) <= 5 /\
  short_point (XVar 2 (N short_landing)) ^ 2 + short_point (XVar 3 (N short_landing)) ^ 2 <= 1 /\
  short_point (XVar 4 (N short_landing)) ^ 2 <= (0.1 * PI / 180) ^ 2 /\
  short_point (XVar 5 (N short_landing)) ^ 2 <= 0.01 ^ 2.
Proof.
  apply (feasible_point_bounds short_landing short_point). exact short_point_feasible.
Defined.

Lemma mdot_nonpos (self : RocketLanding2D) (s : State) (u : Control) :
  0 < Isp_main (rocket self) -> 0 < Isp_rcs (rocket self) -> 0 < g self ->
  0 <= u_T_main u -> 0 <= u_T_rcs_left u -> 0 <= u_T_rcs_right u ->
  s_m (dynamics self s u) <= 0.
Proof.
  intros Him Hir Hg Hm Hl Hr. rewrite mdot_formula.
  assert (Ha : 0 <= u_T_main u / (Isp_main (rocket self) * g self))
    by (apply div_pos_nonneg; [assumption|apply Rmult_lt_0_compat; assumption]).
  assert (Hb : 0 <= (u_T_rcs_left u + u_T_rcs_right u) / (Isp_rcs (rocket self) * g self))
    by (apply div_pos_nonneg; [lra|apply Rmult_lt_0_compat; assumption]).
  lra.
Qed.

Lemma feasible_mass_step (self : RocketLanding2D) (a : Assignment) (k : nat) :
  0 <= dt self -> 0 < Isp_main (rocket self) -> 0 < Isp_rcs (rocket self) -> 0 < g self ->
  0 <= min_thrust_main (rocket self) ->
  feasible (setup_optimization self) a ->
  (k < N self)%nat ->
  a (XVar 6 (k + 1)) <= a (XVar 6 k).
Proof.
  intros Hdt Him Hir Hg Hmin Hf Hk.
  pose proof (feasible_rk4 self a k Hf Hk) as Hstep.
  apply (f_equal s_m) in Hstep. rewrite rk4_mass_euler in Hstep.
  cbn [s_m col_X] in Hstep. rewrite Hstep.
  destruct (feasible_bounds self a Hf) as (_ & Hbox & _).
  destruct (Hbox k Hk) as (B0 & _ & B2 & B3).
  assert (Hd : s_m (dynamics self (col_X a k) (col_U a k)) <= 0).
  { apply mdot_nonpos; try assumption; cbn [col_U u_T_main u_T_rcs_left u_T_rcs_right]; lra. }
  nra.
Qed.

(** In every feasible point of a problem with positive specific impulses and
    gravity, a nonnegative step and a nonnegative lower thrust bound, the mass
    never increases from one sample to the next, and at every sample it lies
    between the dry mass and the initial mass. *)
Theorem feasible_mass_monotone :
  forall (self : RocketLanding2D) (a : Assignment),
    0 <= dt self -> 0 < Isp_main (rocket self) -> 0 < Isp_rcs (rocket self) ->
    0 < g self -> 0 <= min_thrust_main (rocket self) ->
    feasible (setup_optimization self) a ->
    (forall k, (k < N self)%nat -> a (XVar 6 (k + 1)) <= a (XVar 6 k)) /\
    (forall k, (k <= N self)%nat ->
       dry_mass (rocket self) <= a (XVar 6 k) <= s_m (x0 self)).
Proof.
  intros self a Hdt Him Hir Hg Hmin Hf.
  split; [intros k Hk; apply (feasible_mass_step self); assumption|].
  destruct (feasible_bounds self a Hf) as (H0 & _ & Hlow & _).
  apply (f_equal s_m) in H0. cbn [s_m col_X] in H0.
  intros k Hk. split; [apply (Hlow k Hk)|].
  induction k as [|k IH].
  - rewrite H0. lra.
  - pose proof (feasible_mass_step self a k Hdt Him Hir Hg Hmin Hf ltac:(lia)) as Hs.
    rewrite Nat.add_1_r in Hs. specialize (IH ltac:(lia)). lra.
Qed.

Lemma feasible_mass_monotone_witness :
  (forall k, (k < N short_landing)%nat ->
     short_point (XVar 6 (k + 1)) <= short_point (XVar 6 k)) /\
  (forall k, (k <= N short_landing)%nat ->
     dry_mass (rocket short_landing) <= short_point (XVar 6 k) <= s_m (x0 short_landing)).
Proof.
  apply (feasible_mass_monotone short_landing short_point);
    try exact short_point_feasible; simpl; lra.
Defined.

(** The initial guess of [solve] is never feasible for the problem it is
    given to: whatever the initial conditions, with the constants of
    [Rocket()] the guessed mass 5000 is below the dry mass 22000. *)
Theorem initial_guess_infeasible :
  forall d : gmap string R,
  exists self,
    RocketLanding2D_init (Some Rocket_init) (Some (PyDict d)) = Ok self /\
    ~ feasible (setup_optimization self) (initial_guess self).
Proof.
  intro d. eexists. split; [apply init_with_dict|].
  intro Hf.
  destruct (feasible_bounds _ _ Hf) as (_ & _ & Hlow & _).
  destruct (Hlow 0%nat ltac:(lia)) as [Hm _].
  rewrite initial_guess_closed_form in Hm.
  cbn [fixed_guess N Nat.leb rocket dry_mass Rocket_init] in Hm.
  rewrite !INR_IZR_INZ in Hm.
  change (Z.of_nat 100) with 100%Z in Hm. change (Z.of_nat 0) with 0%Z in Hm.
  lra.
Qed.

(** ** solve, for every behaviour of the solver *)

Lemma solve_fault (ipopt : Opti -> Assignment -> SolverOutcome)
    (self : RocketLanding2D) (e e_debug : exn) :
  ipopt (setup_optimization self) (initial_guess self) = Fault e e_debug ->
  solve ipopt self =
  ([EvPrint (OutText "Setting up optimization problem...");
    EvPrint (OutText "Solving optimization problem...");
    EvSolverCall (setup_optimization self) (initial_guess self);
    EvPrint (OutText ("Optimization failed: " +:+ exn_msg e))],
   Raise e_debug).
Proof.
  intro H. unfold solve. rewrite H. reflexivity.
Qed.

Lemma solve_converged_log (ipopt : Opti -> Assignment -> SolverOutcome)
    (self : RocketLanding2D) (sol : Assignment) :
  ipopt (setup_optimization self) (initial_guess self) = Converged sol ->
  solve ipopt self =
  ([EvPrint (OutText "Setting up optimization problem...");
    EvPrint (OutText "Solving optimization problem...");
    EvSolverCall (setup_optimization self) (initial_guess self);
    EvPrint (OutText "Optimization successful!");
    EvPrint (OutFinalPosition (sol (XVar 0 (N self))) (sol (XVar 1 (N self))));
    EvPrint (OutFinalVelocity (sol (XVar 2 (N self))) (sol (XVar 3 (N self))));
    EvPrint (OutLandingError
               (sqrt (sol (XVar 0 (N self)) ^ 2 + sol (XVar 1 (N self)) ^ 2)))],
   Ok (value_X sol self, value_U sol self)).
Proof.
  intro H. unfold solve. rewrite H.
  cbn [opti_solve lift mbind print tell try_except app].
  rewrite last_col_value_X. reflexivity.
Qed.

(** Every call of [solve] calls the solver exactly once, with the assembled
    problem and the fixed initial guess, whether the solver converges, stalls
    or faults. *)
Theorem solve_calls_solver_once :
  forall (ipopt : Opti -> Assignment -> SolverOutcome) (self : RocketLanding2D),
    solver_calls (fst (solve ipopt self)) = 1%nat /\
    In (EvSolverCall (setup_optimization self) (initial_guess self))
       (fst (solve ipopt self)).
Proof.
  intros ipopt self.
  destruct (ipopt (setup_optimization self) (initial_guess self)) as [sol|e it|e e'] eqn:E.
  - rewrite (solve_converged_log _ _ _ E). cbn. auto.
  - rewrite (solve_not_converged _ _ _ _ E). cbn. auto.
  - rewrite (solve_fault _ _ _ _ E). cbn. auto.
Qed.

Lemma solve_returns_shape :
  forall (ipopt : Opti -> Assignment -> SolverOutcome) (self : RocketLanding2D)
         (x_opt : list State) (u_opt : list Control),
    snd (solve ipopt self) = Ok (x_opt, u_opt) ->
    length x_opt = (N self + 1)%nat /\ length u_opt = N self.
Proof.
  intros ipopt self x_opt u_opt H.
  assert (Hv : exists a, x_opt = value_X a self /\ u_opt = value_U a self).
  { destruct (ipopt (setup_optimization self) (initial_guess self)) as [sol|e it|e e'] eqn:E.
    - rewrite (solve_converged_log _ _ _ E) in H. cbn [snd] in H.
      injection H as <- <-. eauto.
    - rewrite (solve_not_converged _ _ _ _ E) in H. cbn [snd] in H.
      injection H as <- <-. eauto.
    - rewrite (solve_fault _ _ _ _ E) in H. discriminate. }
  destruct Hv as (a & -> & ->). unfold value_X, value_U.
  rewrite !length_map, !length_seq. split; reflexivity.
Qed.

(** Whenever [solve] returns, the state array has N+1 columns and the control
    array has N columns. *)
Theorem solve_shape :
  forall (ipopt : Opti -> Assignment -> SolverOutcome) (self : RocketLanding2D)
         (x_opt : list State) (u_opt : list Control),
    snd (solve ipopt self) = Ok (x_opt, u_opt) ->
    length x_opt = (N self + 1)%nat /\ length u_opt = N self.
Proof. exact solve_returns_shape. Qed.

Lemma solve_shape_witness :
  length (value_X zero_point default_landing) = (N default_landing + 1)%nat /\
  length (value_U zero_point default_landing) = N default_landing.
Proof.
  apply (solve_shape ipopt_stalling default_landing).
  rewrite (solve_not_converged ipopt_stalling default_landing _ zero_point eq_refl).
  reflexivity.
Defined.

(** [solve] raises exactly when the solver raises and reading [opti.debug]
    raises as well; the exception that reaches the caller is the one from
    [opti.debug], and the solver's own error is only printed. *)
Theorem solve_raises_iff_fault :
  forall (ipopt : Opti -> Assignment -> SolverOutcome) (self : RocketLanding2D)
         (e_debug : exn),
    snd (solve ipopt self) = Raise e_debug <->
    exists e, ipopt (setup_optimization self) (initial_guess self) = Fault e e_debug /\
              In (EvPrint (OutText ("Optimization failed: " +:+ exn_msg e)))
                 (fst (solve ipopt self)).
Proof.
  intros ipopt self e_debug. split.
  - intro H.
    destruct (ipopt (setup_optimization self) (initial_guess self)) as [sol|e it|e e'] eqn:E.
    + rewrite (solve_converged_log _ _ _ E) in H. discriminate.
    + rewrite (solve_not_converged _ _ _ _ E) in H. discriminate.
    + rewrite (solve_fault _ _ _ _ E) in H |- *. cbn [snd] in H. injection H as <-.
      exists e. split; [reflexivity|]. cbn. auto.
  - intros (e & E & _). rewrite (solve_fault _ _ _ _ E). reflexivity.
Qed.

(** When the solver converges to a feasible point, the first column of the
    state array that [solve] returns is the initial state of the problem. *)
Theorem solve_feasible_start :
  forall (ipopt : Opti -> Assignment -> SolverOutcome) (self : RocketLanding2D)
         (sol : Assignment),
    ipopt (setup_optimization self) (initial_guess self) = Converged sol ->
    feasible (setup_optimization self) sol ->
    exists rest u_opt,
      snd (solve ipopt self) = Ok (x0 self :: rest, u_opt) /\
      length rest = N self.
Proof.
  intros ipopt self sol E Hf.
  rewrite (solve_converged_log _ _ _ E). cbn [snd].
  destruct (feasible_bounds self sol Hf) as (H0 & _).
  unfold value_X. rewrite Nat.add_1_r. cbn [seq map]. rewrite H0.
  eexists. eexists. split; [reflexivity|].
  rewrite length_map, length_seq. reflexivity.
Qed.

Lemma solve_feasible_start_witness :
  exists rest u_opt,
    snd (solve ipopt_short short_landing) = Ok (x0 short_landing :: rest, u_opt) /\
    length rest = N short_landing.
Proof.
  apply (solve_feasible_start ipopt_short short_landing short_point).
  - reflexivity.
  - exact short_point_feasible.
Defined.

(** ** Metrics *)

Lemma fold_left_Rmax_spec (l : list R) :
  forall acc,
    acc <= fold_left Rmax l acc /\
    Forall (fun v => v <= fold_left Rmax l acc) l /\
    (fold_left Rmax l acc = acc \/ In (fold_left Rmax l acc) l).
Proof.
  induction l as [|h l IH]; intro acc; cbn [fold_left].
  - split; [lra|]. split; [constructor|]. left. reflexivity.
  - destruct (IH (Rmax acc h)) as (Hge & Hall & Hin).
    pose proof (Rmax_l acc h) as Hl. pose proof (Rmax_r acc h) as Hr.
    split; [lra|]. split.
    + constructor; [lra|exact Hall].
    + destruct Hin as [Heq|Hin].
      * rewrite Heq. unfold Rmax. destruct (Rle_dec acc h); [right; left|left]; reflexivity.
      * right. right. exact Hin.
Qed.

Lemma np_max_spec (l : list R) (v : R) :
  np_max l = Ok v -> Forall (fun w => w <= v) l /\ In v l.
Proof.
  destruct l as [|h l]; [discriminate|]. cbn [np_max]. intro H. injection H as <-.
  destruct (fold_left_Rmax_spec l h) as (Hge & Hall & Hin).
  split.
  - constructor; assumption.
  - destruct Hin as [->|Hin]; [left; reflexivity|right; exact Hin].
Qed.

Lemma calculate_metrics_inv (x_opt : list State) (u_opt : list Control)
    (rocket : RocketLanding2D) (x0 y0 vx0 vy0 : R) (m : Metrics) :
  calculate_metrics x_opt u_opt rocket x0 y0 vx0 vy0 = Ok m ->
  exists last,
    last_col x_opt = Ok last /\
    final_position m = (s_x last, s_y last) /\
    final_velocity m = (s_vx last, s_vy last) /\
    landing_error m = sqrt (s_x last ^ 2 + s_y last ^ 2) /\
    success m = Rltb (landing_error m) 1.0 /\
    flight_time m = T rocket /\
    fuel_consumption m =
      np_sum (map (fun u => sqrt (u_T_main u ^ 2 + u_delta u ^ 2)) u_opt) /\
    np_max (map (fun s => sqrt (s_vx s ^ 2 + s_vy s ^ 2)) x_opt) = Ok (max_velocity m) /\
    np_max (map (fun u => sqrt (u_T_main u ^ 2 + u_delta u ^ 2)) u_opt) = Ok (max_thrust m).
Proof.
  unfold calculate_metrics. intro H.
  destruct (last_col x_opt) as [last|e]; [|discriminate]. cbn [rbind] in H.
  destruct (np_max (map (fun s => sqrt (s_vx s ^ 2 + s_vy s ^ 2)) x_opt)) as [mv|e];
    [|discriminate]. cbn [rbind] in H.
  destruct (np_max (map (fun u => sqrt (u_T_main u ^ 2 + u_delta u ^ 2)) u_opt)) as [mt|e];
    [|discriminate]. cbn [rbind] in H.
  injection H as <-. exists last. cbn. repeat split; reflexivity.
Qed.

(** On an empty state array [calculate_metrics] raises [IndexError]; on a
    state array with a column and an empty control array it raises
    [ValueError], from the maximum over no thrust sample. *)
Theorem metrics_empty_arrays :
  forall (rocket : RocketLanding2D) (x0 y0 vx0 vy0 : R),
    (forall u_opt, exists msg,
        calculate_metrics [] u_opt rocket x0 y0 vx0 vy0 = Raise (mkExn IndexError msg)) /\
    (forall s x_opt, exists msg,
        calculate_metrics (s :: x_opt) [] rocket x0 y0 vx0 vy0 =
        Raise (mkExn ValueError msg)).
Proof.
  intros rocket x0 y0 vx0 vy0. split.
  - intro u_opt. eexists. reflexivity.
  - intros s x_opt.
    destruct (nonempty_snoc (s :: x_opt)) as (front & last & E); [discriminate|].
    rewrite E. unfold calculate_metrics. rewrite last_col_snoc. cbn [rbind].
    destruct (np_max_nonempty
                (map (fun s => sqrt (s_vx s ^ 2 + s_vy s ^ 2)) (front ++ [last]))) as [mv Hmv].
    { destruct front; discriminate. }
    rewrite Hmv. cbn [rbind map np_max]. eexists. reflexivity.
Qed.

(** The reported [max_velocity] is the speed of one of the samples and no
    sample is faster; likewise [max_thrust] for the norm of the first two
    control rows. *)
Theorem metrics_maxima :
  forall (x_opt : list State) (u_opt : list Control) (rocket : RocketLanding2D)
         (x0 y0 vx0 vy0 : R) (m : Metrics),
    calculate_metrics x_opt u_opt rocket x0 y0 vx0 vy0 = Ok m ->
    (forall s, In s x_opt -> sqrt (s_vx s ^ 2 + s_vy s ^ 2) <= max_velocity m) /\
    (exists s, In s x_opt /\ max_velocity m = sqrt (s_vx s ^ 2 + s_vy s ^ 2)) /\
    (forall u, In u u_opt -> sqrt (u_T_main u ^ 2 + u_delta u ^ 2) <= max_thrust m) /\
    (exists u, In u u_opt /\ max_thrust m = sqrt (u_T_main u ^ 2 + u_delta u ^ 2)).
Proof.
  intros x_opt u_opt rocket x0 y0 vx0 vy0 m H.
  destruct (calculate_metrics_inv _ _ _ _ _ _ _ _ H)
    as (last & _ & _ & _ & _ & _ & _ & _ & Hv & Ht).
  destruct (np_max_spec _ _ Hv) as [Hvall Hvin].
  destruct (np_max_spec _ _ Ht) as [Htall Htin].
  rewrite List.Forall_forall in Hvall, Htall.
  repeat split.
  - intros s Hs. apply Hvall. apply in_map_iff. exists s. split; [reflexivity|exact Hs].
  - apply in_map_iff in Hvin. destruct Hvin as (s & Hs & Hin). exists s. split; [exact Hin|].
    symmetry. exact Hs.
  - intros u Hu. apply Htall. apply in_map_iff. exists u. split; [reflexivity|exact Hu].
  - apply in_map_iff in Htin. destruct Htin as (u & Hu & Hin). exists u. split; [exact Hin|].
    symmetry. exact Hu.
Qed.

Lemma metrics_maxima_witness :
  exists m,
    calculate_metrics [mkState 3 4 0 0 0 0 22000] [mkControl 0 0 0 0]
                      default_landing 0 1000 0 0 = Ok m /\
    (forall s, In s [mkState 3 4 0 0 0 0 22000] ->
       sqrt (s_vx s ^ 2 + s_vy s ^ 2) <= max_velocity m).
Proof.
  eexists. split; [reflexivity|].
  apply (metrics_maxima [mkState 3 4 0 0 0 0 22000] [mkControl 0 0 0 0]
           default_landing 0 1000 0 0).
  reflexivity.
Defined.

Lemma sqrt_lt_1_iff (a : R) : 0 <= a -> (sqrt a < 1 <-> a < 1).
Proof.
  intro Ha. split; intro H.
  - rewrite <- sqrt_1 in H. apply sqrt_lt_0_alt in H. exact H.
  - rewrite <- sqrt_1. apply sqrt_lt_1_alt. lra.
Qed.

(** [metrics.success] is true exactly when the final position is strictly
    inside the unit circle around the origin; the landing error is never
    negative; and a successful landing satisfies the two position constraints
    of the problem, [x_N^2 <= 10^2] and [y_N <= 5]. *)
Theorem metrics_success_unit_circle :
  forall (x_opt : list State) (u_opt : list Control) (rocket : RocketLanding2D)
         (x0 y0 vx0 vy0 : R) (m : Metrics),
    calculate_metrics x_opt u_opt rocket x0 y0 vx0 vy0 = Ok m ->
    0 <= landing_error m /\
    (success m = true <->
     fst (final_position m) ^ 2 + snd (final_position m) ^ 2 < 1) /\
    (success m = true ->
     fst (final_position m) ^ 2 <= 10 ^ 2 /\ snd (final_position m) <= 5).
Proof.
  intros x_opt u_opt rocket x0 y0 vx0 vy0 m H.
  destruct (calculate_metrics_inv _ _ _ _ _ _ _ _ H)
    as (last & _ & Hp & _ & He & Hs & _).
  rewrite Hp, Hs, He. cbn [fst snd].
  assert (Hnn : 0 <= s_x last ^ 2 + s_y last ^ 2) by nra.
  assert (Hiff : Rltb (sqrt (s_x last ^ 2 + s_y last ^ 2)) 1.0 = true <->
                 s_x last ^ 2 + s_y last ^ 2 < 1).
  { rewrite Rltb_true_iff. replace 1.0 with 1 by lra. apply sqrt_lt_1_iff. exact Hnn. }
  split; [apply sqrt_pos|]. split; [exact Hiff|].
  intro Hs'. apply Hiff in Hs'. nra.
Qed.

Lemma metrics_success_unit_circle_witness :
  exists m,
    calculate_metrics [mkState 3 4 0 0 0 0 22000] [mkControl 0 0 0 0]
                      default_landing 0 1000 0 0 = Ok m /\
    0 <= landing_error m.
Proof.
  eexists. split; [reflexivity|].
  apply (metrics_success_unit_circle [mkState 3 4 0 0 0 0 22000] [mkControl 0 0 0 0]
           default_landing 0 1000 0 0).
  reflexivity.
Defined.

Lemma np_sum_nonneg (l : list R) :
  Forall (fun w => 0 <= w) l -> 0 <= np_sum l.
Proof.
  induction 1 as [|h l Hh Hl IH].
  - cbn. lra.
  - change (np_sum (h :: l)) with (h + np_sum l). lra.
Qed.

Lemma np_sum_upper (l : list R) (v : R) :
  Forall (fun w => w <= v) l -> np_sum l <= INR (length l) * v.
Proof.
  induction 1 as [|h l Hh Hl IH].
  - cbn. lra.
  - change (np_sum (h :: l)) with (h + np_sum l).
    change (length (h :: l)) with (S (length l)). rewrite S_INR. lra.
Qed.

Lemma np_sum_lower (l : list R) (v : R) :
  Forall (fun w => 0 <= w) l -> In v l -> v <= np_sum l.
Proof.
  induction 1 as [|h l Hh Hl IH]; intro Hin; [contradiction|].
  change (np_sum (h :: l)) with (h + np_sum l).
  pose proof (np_sum_nonneg l Hl) as Hs.
  destruct Hin as [->|Hin]; [lra|]. specialize (IH Hin). lra.
Qed.

Lemma np_sum_bounds (l : list R) (v : R) :
  Forall (fun w => 0 <= w) l -> Forall (fun w => w <= v) l -> In v l ->
  v <= np_sum l <= INR (length l) * v.
Proof.
  intros Hnn Hle Hin. split; [apply np_sum_lower|apply np_sum_upper]; assumption.
Qed.

(** The reported [fuel_consumption], the sum of the per-step norms of the
    first two control rows, lies between [max_thrust] and the number of
    control samples times [max_thrust]; both are nonnegative. *)
Theorem metrics_fuel_bounds :
  forall (x_opt : list State) (u_opt : list Control) (rocket : RocketLanding2D)
         (x0 y0 vx0 vy0 : R) (m : Metrics),
    calculate_metrics x_opt u_opt rocket x0 y0 vx0 vy0 = Ok m ->
    0 <= max_thrust m /\
    max_thrust m <= fuel_consumption m <= INR (length u_opt) * max_thrust m.
Proof.
  intros x_opt u_opt rocket x0 y0 vx0 vy0 m H.
  destruct (calculate_metrics_inv _ _ _ _ _ _ _ _ H)
    as (last & _ & _ & _ & _ & _ & _ & Hf & _ & Ht).
  destruct (np_max_spec _ _ Ht) as [Hall Hin].
  assert (Hnn : Forall (fun w => 0 <= w)
                  (map (fun u => sqrt (u_T_main u ^ 2 + u_delta u ^ 2)) u_opt)).
  { rewrite List.Forall_forall. intros w Hw. apply in_map_iff in Hw.
    destruct Hw as (u & <- & _). apply sqrt_pos. }
  pose proof (np_sum_bounds _ _ Hnn Hall Hin) as Hb.
  rewrite length_map in Hb. rewrite Hf.
  split; [|exact Hb].
  rewrite List.Forall_forall in Hnn. apply Hnn. exact Hin.
Qed.

Lemma metrics_fuel_bounds_witness :
  exists m,
    calculate_metrics [mkState 3 4 0 0 0 0 22000] [mkControl 0 0 0 0]
                      default_landing 0 1000 0 0 = Ok m /\
    0 <= max_thrust m /\
    max_thrust m <= fuel_consumption m <= INR (length [mkControl 0 0 0 0]) * max_thrust m.
Proof.
  eexists. split; [reflexivity|].
  apply (metrics_fuel_bounds [mkState 3 4 0 0 0 0 22000] [mkControl 0 0 0 0]
           default_landing 0 1000 0 0).
  reflexivity.
Defined.

(** ** Trajectory extraction *)

(** For the arrays that [solve] returns, the extracted trajectory has N+1
    entries in the time, position and velocity channels and N entries in the
    two thrust channels. *)
Theorem extracted_channel_lengths :
  forall (ipopt : Opti -> Assignment -> SolverOutcome) (self : RocketLanding2D)
         (x_opt : list State) (u_opt : list Control),
    snd (solve ipopt self) = Ok (x_opt, u_opt) ->
    let tr := extract_trajectory_data x_opt u_opt self in
    length (tr_time tr) = (N self + 1)%nat /\
    length (tr_horizontal_position tr) = (N self + 1)%nat /\
    length (tr_vertical_position tr) = (N self + 1)%nat /\
    length (tr_horizontal_velocity tr) = (N self + 1)%nat /\
    length (tr_vertical_velocity tr) = (N self + 1)%nat /\
    length (tr_thrust_horizontal tr) = N self /\
    length (tr_thrust_vertical tr) = N self.
Proof.
  intros ipopt self x_opt u_opt H. cbv zeta.
  destruct (solve_returns_shape _ _ _ _ H) as [Hx Hu].
  unfold extract_trajectory_data, linspace0.
  cbn [tr_time tr_horizontal_position tr_vertical_position tr_horizontal_velocity
       tr_vertical_velocity tr_thrust_horizontal tr_thrust_vertical].
  rewrite !length_map, length_seq, Hx, Hu. repeat split; reflexivity.
Qed.

Lemma extracted_channel_lengths_witness :
  let tr := extract_trajectory_data (value_X zero_point default_landing)
              (value_U zero_point default_landing) default_landing in
  length (tr_time tr) = (N default_landing + 1)%nat /\
  length (tr_horizontal_position tr) = (N default_landing + 1)%nat /\
  length (tr_vertical_position tr) = (N default_landing + 1)%nat /\
  length (tr_horizontal_velocity tr) = (N default_landing + 1)%nat /\
  length (tr_vertical_velocity tr) = (N default_landing + 1)%nat /\
  length (tr_thrust_horizontal tr) = N default_landing /\
  length (tr_thrust_vertical tr) = N default_landing.
Proof.
  apply (extracted_channel_lengths ipopt_stalling default_landing).
  rewrite (solve_not_converged ipopt_stalling default_landing _ zero_point eq_refl).
  reflexivity.
Defined.

Lemma nth_map_seq (f : nat -> R) (n i : nat) :
  (i < n)%nat -> List.nth i (map f (seq 0 n)) 0 = f i.
Proof.
  intro Hi.
  rewrite (nth_indep _ 0 (f 0%nat)) by (rewrite length_map, length_seq; exact Hi).
  rewrite map_nth, seq_nth by exact Hi. reflexivity.
Qed.

Lemma linspace0_nth (stop : R) (n i : nat) :
  (i <= n)%nat ->
  List.nth i (linspace0 stop (n + 1)) 0 = INR i * (stop / INR n).
Proof.
  intro Hi. unfold linspace0.
  replace (n + 1 - 1)%nat with n by lia.
  rewrite nth_map_seq by lia. reflexivity.
Qed.

(** The time channel is the uniform grid over the horizon: sample [i] is
    [i * T / N], so it starts at 0, ends at [T] and advances by [T / N]. *)
Theorem time_grid :
  forall (x_opt : list State) (u_opt : list Control) (self : RocketLanding2D) (i : nat),
    (0 < N self)%nat -> (i <= N self)%nat ->
    let time := tr_time (extract_trajectory_data x_opt u_opt self) in
    List.nth i time 0 = INR i * (T self / INR (N self)) /\
    List.nth 0 time 0 = 0 /\
    List.nth (N self) time 0 = T self /\
    ((i < N self)%nat -> List.nth (i + 1) time 0 - List.nth i time 0 = T self / INR (N self)).
Proof.
  intros x_opt u_opt self i HN Hi. cbv zeta.
  unfold extract_trajectory_data. cbn [tr_time].
  assert (HNR : INR (N self) <> 0) by (apply not_0_INR; lia).
  split; [apply linspace0_nth; exact Hi|].
  split; [rewrite linspace0_nth by lia; cbn [INR]; lra|].
  split; [rewrite linspace0_nth by lia; field; exact HNR|].
  intro Hlt. rewrite !linspace0_nth by lia. rewrite Nat.add_1_r, S_INR. lra.
Qed.

Lemma time_grid_witness :
  let time := tr_time (extract_trajectory_data [] [] default_landing) in
  List.nth 3 time 0 = INR 3 * (T default_landing / INR (N default_landing)) /\
  List.nth 0 time 0 = 0 /\
  List.nth (N default_landing) time 0 = T default_landing /\
  ((3 < N default_landing)%nat ->
   List.nth (3 + 1) time 0 - List.nth 3 time 0 = T default_landing / INR (N default_landing)).
Proof.
  apply (time_grid [] [] default_landing 3); simpl; lia.
Defined.

(** ** Construction from a dictionary *)

(** The dictionary the handler builds from the four validated numbers is read
    back by the constructor as the initial state (x0, y0, vx0, vy0, 0, 0, wet
    mass): attitude and angular rate start at zero. *)
Theorem handler_dictionary_round_trip :
  forall (r : Rocket) (x0 y0 vx0 vy0 : R),
    RocketLanding2D_init (Some r)
      (Some (PyDict (<["vertical_speed" := vy0]> (<["horizontal_speed" := vx0]>
                      (<["vertical_position" := y0]> (<["horizontal_position" := x0]> ∅)))))) =
    Ok (mkRocketLanding2D r (mkState x0 y0 vx0 vy0 0 0 (wet_mass r))
                          9.81 20.0 100 (20.0 / INR 100)).
Proof.
  intros r x0 y0 vx0 vy0. rewrite init_with_dict. reflexivity.
Qed.

(** Only the keys horizontal_position, vertical_position, horizontal_speed,
    vertical_speed and theta are read: an entry under any other key, a mass
    or an angular velocity for instance, does not change the problem. *)
Theorem init_ignores_other_keys :
  forall (r : Rocket) (d : gmap string R) (key : string) (v : R),
    key <> "horizontal_position" -> key <> "vertical_position" ->
    key <> "horizontal_speed" -> key <> "vertical_speed" -> key <> "theta" ->
    RocketLanding2D_init (Some r) (Some (PyDict (<[key := v]> d))) =
    RocketLanding2D_init (Some r) (Some (PyDict d)).
Proof.
  intros r d key v H1 H2 H3 H4 H5. rewrite !init_with_dict. unfold dict_get.
  rewrite !lookup_insert_ne by assumption. reflexivity.
Qed.

Lemma init_ignores_other_keys_witness :
  RocketLanding2D_init (Some Rocket_init) (Some (PyDict (<["mass" := 5000]> ∅))) =
  RocketLanding2D_init (Some Rocket_init) (Some (PyDict ∅)).
Proof.
  apply (init_ignores_other_keys Rocket_init ∅ "mass" 5000); discriminate.
Defined.

(** ** The handler, for every request *)

Lemma init_without_rocket (c : option pyobj) :
  RocketLanding2D_init None c =
  Raise (mkExn TypeError
    "RocketLanding2D.__init__() missing 1 required positional argument: 'rocket'").
Proof. reflexivity. Qed.

(** Whatever the request body, the engine flag, the solver and the string
    parser, the handler answers 400 or 500, never 200, and it never calls the
    solver: the only event it can log is the attempt to construct the
    problem. *)
Theorem handler_never_succeeds :
  forall (ipopt : Opti -> Assignment -> SolverOutcome)
         (str_to_float : string -> option R) (engine : bool) (data : json),
    let out := optimize_trajectory ipopt str_to_float engine data in
    (status (snd out) = 400%nat \/ status (snd out) = 500%nat) /\
    solver_calls (fst out) = 0%nat /\
    (fst out = [] \/ exists d, fst out = [EvConstruct d]).
Proof.
  intros ipopt stf engine data. cbv zeta.
  unfold optimize_trajectory, optimize_trajectory_try.
  destruct (truthy data); cbn [negb jsonify ret fst snd status];
    [|split; [auto|split; [reflexivity|auto]]].
  destruct (py_get data "initial_conditions" (JObj ∅)) as [ic|e]; cbn [lift mbind app].
  2: { destruct (exn_class_of e); cbn; auto. }
  destruct (first_missing required_fields ic) as [[field|]|e]; cbn [lift mbind app jsonify ret].
  1: { cbn. auto. }
  2: { destruct (exn_class_of e); cbn; auto. }
  destruct (let* v := py_getitem ic "horizontal_position" in py_float stf v) as [x0|e];
    cbn [lift mbind app].
  2: { destruct (exn_class_of e); cbn; auto. }
  destruct (let* v := py_getitem ic "vertical_position" in py_float stf v) as [y0|e];
    cbn [lift mbind app].
  2: { destruct (exn_class_of e); cbn; auto. }
  destruct (let* v := py_getitem ic "horizontal_speed" in py_float stf v) as [vx0|e];
    cbn [lift mbind app].
  2: { destruct (exn_class_of e); cbn; auto. }
  destruct (let* v := py_getitem ic "vertical_speed" in py_float stf v) as [vy0|e];
    cbn [lift mbind app].
  2: { destruct (exn_class_of e); cbn; auto. }
  destruct (Rltb y0 0 || Rltb 2000 y0); [cbn; auto|].
  destruct (Rltb 1500 (Rabs x0)); [cbn; auto|].
  destruct (Rltb 50 (Rabs vx0) || Rltb 50 (Rabs vy0)); [cbn; auto|].
  destruct engine; cbn [negb]; [|cbn; auto].
  rewrite init_without_rocket.
  cbn [tell lift mbind app fst snd status exn_class_of solver_calls List.filter length].
  split; [auto|]. split; [reflexivity|]. right. eexists. reflexivity.
Qed.

Lemma Rabs_le_iff (b x : R) : Rabs x <= b <-> - b <= x <= b.
Proof.
  unfold Rabs. destruct (Rcase_abs x); lra.
Qed.

Lemma engine_unavailable_response :
  forall (ipopt : Opti -> Assignment -> SolverOutcome)
         (str_to_float : string -> option R) (x0 y0 vx0 vy0 : R),
    0 <= y0 <= 2000 -> Rabs x0 <= 1500 -> Rabs vx0 <= 50 -> Rabs vy0 <= 50 ->
    optimize_trajectory ipopt str_to_float false
      (request_with (JNum y0) (JNum x0) (JNum vy0) (JNum vx0)) =
    ([], mkResponse 500 (BError "Optimization engine not available" None)).
Proof.
  intros ipopt stf x0 y0 vx0 vy0 Hy Hx Hvx Hvy.
  unfold optimize_trajectory, optimize_trajectory_try.
  rewrite truthy_request_with. cbn [negb].
  rewrite py_get_request_with. cbn [lift mbind app].
  destruct (getitem_request_with (JNum y0) (JNum x0) (JNum vy0) (JNum vx0))
    as (Gx & Gy & Gvx & Gvy & Gm).
  rewrite Gm, Gx, Gy, Gvx, Gvy.
  cbn [mbind app rbind py_float lift].
  assert (H1 : Rltb y0 0 = false) by (apply Rltb_false_iff; lra).
  assert (H2 : Rltb 2000 y0 = false) by (apply Rltb_false_iff; lra).
  rewrite H1, H2, (Rabs_le_Rltb _ _ Hx), (Rabs_le_Rltb _ _ Hvx), (Rabs_le_Rltb _ _ Hvy).
  reflexivity.
Qed.

(** With the engine missing, a request that passes validation is answered 500
    "Optimization engine not available" and nothing is constructed. *)
Theorem engine_unavailable :
  forall (ipopt : Opti -> Assignment -> SolverOutcome)
         (str_to_float : string -> option R) (x0 y0 vx0 vy0 : R),
    0 <= y0 <= 2000 -> Rabs x0 <= 1500 -> Rabs vx0 <= 50 -> Rabs vy0 <= 50 ->
    optimize_trajectory ipopt str_to_float false
      (request_with (JNum y0) (JNum x0) (JNum vy0) (JNum vx0)) =
    ([], mkResponse 500 (BError "Optimization engine not available" None)).
Proof. exact engine_unavailable_response. Qed.

Lemma engine_unavailable_witness :
  optimize_trajectory ipopt_converging no_str_to_float false
    (request_with (JNum 1000) (JNum 0) (JNum 0) (JNum 0)) =
  ([], mkResponse 500 (BError "Optimization engine not available" None)).
Proof.
  apply (engine_unavailable ipopt_converging no_str_to_float 0 1000 0 0);
    try rewrite Rabs_R0; lra.
Defined.

(** The bounds the handler enforces are the ones /api/parameters/defaults
    publishes: a request with four numeric fields is answered 400 exactly when
    one of them lies outside its published interval; and the published
    default initial conditions lie inside the published intervals. *)
Theorem validation_matches_published_bounds :
  forall (ipopt : Opti -> Assignment -> SolverOutcome)
         (str_to_float : string -> option R) (engine : bool) (x0 y0 vx0 vy0 : R),
    let c := dp_constraints (snd get_default_parameters) in
    let d := dp_initial_conditions (snd get_default_parameters) in
    (status (snd (optimize_trajectory ipopt str_to_float engine
                    (request_with (JNum y0) (JNum x0) (JNum vy0) (JNum vx0)))) = 400%nat <->
     ~ (within (c_vertical_position c) y0 /\ within (c_horizontal_position c) x0 /\
        within (c_horizontal_speed c) vx0 /\ within (c_vertical_speed c) vy0)) /\
    within (c_vertical_position c) (ic_vertical_position d) /\
    within (c_horizontal_position c) (ic_horizontal_position d) /\
    within (c_horizontal_speed c) (ic_horizontal_speed d) /\
    within (c_vertical_speed c) (ic_vertical_speed d).
Proof.
  intros ipopt stf engine x0 y0 vx0 vy0. cbv zeta.
  unfold get_default_parameters, within.
  cbn [snd dp_constraints dp_initial_conditions c_vertical_position c_horizontal_position
       c_horizontal_speed c_vertical_speed b_min b_max ic_vertical_position
       ic_horizontal_position ic_horizontal_speed ic_vertical_speed].
  split; [|lra].
  pose proof (Rabs_le_iff 1500 x0) as Ax.
  pose proof (Rabs_le_iff 50 vx0) as Avx.
  pose proof (Rabs_le_iff 50 vy0) as Avy.
  destruct (Rle_dec 0 y0) as [Hy1|Hy1];
  [destruct (Rle_dec y0 2000) as [Hy2|Hy2];
   [destruct (Rle_dec (Rabs x0) 1500) as [Hx|Hx];
    [destruct (Rle_dec (Rabs vx0) 50) as [Hvx|Hvx];
     [destruct (Rle_dec (Rabs vy0) 50) as [Hvy|Hvy]|]|]|]|].
  - (* all within bounds: 500 *)
    assert (Hs : status (snd (optimize_trajectory ipopt stf engine
                   (request_with (JNum y0) (JNum x0) (JNum vy0) (JNum vx0)))) = 500%nat).
    { destruct engine.
      - rewrite valid_request_response by (try split; assumption). reflexivity.
      - rewrite engine_unavailable_response by (try split; assumption). reflexivity. }
    rewrite Hs. split; [discriminate|]. intro Hn. exfalso. apply Hn. lra.
  - destruct (out_of_bounds_rejected ipopt stf engine x0 y0 vx0 vy0) as [msg ->]; [lra|].
    split; [intros _; lra|reflexivity].
  - destruct (out_of_bounds_rejected ipopt stf engine x0 y0 vx0 vy0) as [msg ->]; [lra|].
    split; [intros _; lra|reflexivity].
  - destruct (out_of_bounds_rejected ipopt stf engine x0 y0 vx0 vy0) as [msg ->]; [lra|].
    split; [intros _; lra|reflexivity].
  - destruct (out_of_bounds_rejected ipopt stf engine x0 y0 vx0 vy0) as [msg ->]; [lra|].
    split; [intros _; lra|reflexivity].
  - destruct (out_of_bounds_rejected ipopt stf engine x0 y0 vx0 vy0) as [msg ->]; [lra|].
    split; [intros _; lra|reflexivity].
Qed.

Lemma first_missing_object (m : gmap string json) :
  first_missing required_fields (JObj m) =
  Ok (List.find (fun f => negb (bool_decide (is_Some (m !! f)))) required_fields).
Proof.
  unfold required_fields. cbn [first_missing py_contains rbind List.find].
  repeat (match goal with
          | |- context [bool_decide (is_Some (m !! ?k))] =>
              destruct (bool_decide (is_Some (m !! k))); cbn [negb]; try reflexivity
          end).
Qed.

Lemma truthy_object (body : gmap string json) (key : string) (v : json) :
  body !! key = Some v -> truthy (JObj body) = true.
Proof.
  intro Hb. cbn [truthy]. apply negb_true_iff, bool_decide_eq_false.
  intros ->. rewrite lookup_empty in Hb. discriminate.
Qed.

Lemma missing_field_answer (ipopt : Opti -> Assignment -> SolverOutcome)
    (str_to_float : string -> option R) (engine : bool)
    (body : gmap string json) (ic : json) (f : string) :
  truthy (JObj body) = true ->
  default (JObj ∅) (body !! "initial_conditions") = ic ->
  first_missing required_fields ic = Ok (Some f) ->
  optimize_trajectory ipopt str_to_float engine (JObj body) =
  ([], mkResponse 400 (BError ("Missing required field: " +:+ f) None)).
Proof.
  intros Ht Hb Hf.
  unfold optimize_trajectory, optimize_trajectory_try.
  rewrite Ht. cbn [negb py_get]. rewrite Hb. cbn [lift mbind app].
  rewrite Hf. reflexivity.
Qed.

(** When the [initial_conditions] object lacks a required field, the answer is
    400 "Missing required field: f", where f is the first absent field in the
    order vertical_position, horizontal_position, vertical_speed,
    horizontal_speed; nothing is constructed. *)
Theorem missing_field_rejected :
  forall (ipopt : Opti -> Assignment -> SolverOutcome)
         (str_to_float : string -> option R) (engine : bool)
         (body m : gmap string json) (field : string),
    body !! "initial_conditions" = Some (JObj m) ->
    In field required_fields ->
    m !! field = None ->
    exists f,
      List.find (fun f => negb (bool_decide (is_Some (m !! f)))) required_fields = Some f /\
      m !! f = None /\
      optimize_trajectory ipopt str_to_float engine (JObj body) =
      ([], mkResponse 400 (BError ("Missing required field: " +:+ f) None)).
Proof.
  intros ipopt stf engine body m field Hb Hin Hm.
  destruct (List.find (fun f => negb (bool_decide (is_Some (m !! f)))) required_fields)
    as [f|] eqn:Hfind.
  - exists f. split; [reflexivity|].
    pose proof (find_some _ _ Hfind) as [_ Hf].
    apply negb_true_iff, bool_decide_eq_false in Hf.
    split.
    { destruct (m !! f) eqn:E; [exfalso; apply Hf; eauto|reflexivity]. }
    apply (missing_field_answer ipopt stf engine body (JObj m) f).
    + exact (truthy_object _ _ _ Hb).
    + rewrite Hb. reflexivity.
    + rewrite first_missing_object, Hfind. reflexivity.
  - exfalso. pose proof (find_none _ _ Hfind field Hin) as Hn.
    cbv beta in Hn. rewrite Hm in Hn.
    apply negb_false_iff, bool_decide_eq_true in Hn. destruct Hn as [? Hn]. discriminate.
Qed.

Lemma missing_field_rejected_witness :
  exists f,
    List.find (fun f => negb (bool_decide (is_Some
       ((<["vertical_position" := JNum 100]> ∅ : gmap string json) !! f)))) required_fields
      = Some f /\
    (<["vertical_position" := JNum 100]> ∅ : gmap string json) !! f = None /\
    optimize_trajectory ipopt_converging no_str_to_float true
      (JObj (<["initial_conditions" := JObj (<["vertical_position" := JNum 100]> ∅)]> ∅)) =
    ([], mkResponse 400 (BError ("Missing required field: " +:+ f) None)).
Proof.
  apply (missing_field_rejected ipopt_converging no_str_to_float true
           (<["initial_conditions" := JObj (<["vertical_position" := JNum 100]> ∅)]> ∅)
           (<["vertical_position" := JNum 100]> ∅) "vertical_speed").
  - reflexivity.
  - cbn. auto.
  - reflexivity.
Defined.

(** An empty body ([{}], [[]], [null], 0, the empty string, false) is answered
    400 "No JSON data provided"; a non-empty object without the key
    [initial_conditions] is treated as one with no field and answered 400
    "Missing required field: vertical_position". *)
Theorem empty_body_rejected :
  forall (ipopt : Opti -> Assignment -> SolverOutcome)
         (str_to_float : string -> option R) (engine : bool),
    (forall data, truthy data = false ->
       optimize_trajectory ipopt str_to_float engine data =
       ([], mkResponse 400 (BError "No JSON data provided" None))) /\
    (forall body : gmap string json,
       body <> ∅ -> body !! "initial_conditions" = None ->
       optimize_trajectory ipopt str_to_float engine (JObj body) =
       ([], mkResponse 400 (BError "Missing required field: vertical_position" None))).
Proof.
  intros ipopt stf engine. split.
  - intros data Ht. unfold optimize_trajectory, optimize_trajectory_try.
    rewrite Ht. reflexivity.
  - intros body Hne Hb.
    apply (missing_field_answer ipopt stf engine body (JObj ∅) "vertical_position").
    + cbn [truthy]. apply negb_true_iff, bool_decide_eq_false. exact Hne.
    + rewrite Hb. reflexivity.
    + reflexivity.
Qed.

Lemma empty_body_rejected_witness :
  optimize_trajectory ipopt_converging no_str_to_float true (JObj ∅) =
    ([], mkResponse 400 (BError "No JSON data provided" None)) /\
  optimize_trajectory ipopt_converging no_str_to_float true
    (JObj (<["conditions" := JNull]> ∅)) =
    ([], mkResponse 400 (BError "Missing required field: vertical_position" None)).
Proof.
  destruct (empty_body_rejected ipopt_converging no_str_to_float true) as [H1 H2].
  split.
  - apply H1. reflexivity.
  - apply H2; [apply insert_non_empty|reflexivity].
Defined.

(** A body that is not empty and not an object (an array, a number, a string,
    [true]) is answered 500 "Unexpected error": [data.get] raises
    [AttributeError]. *)
Theorem non_object_body_answered_500 :
  forall (ipopt : Opti -> Assignment -> SolverOutcome)
         (str_to_float : string -> option R) (engine : bool) (data : json),
    truthy data = true ->
    (forall m, data <> JObj m) ->
    optimize_trajectory ipopt str_to_float engine data =
    ([], mkResponse 500
           (BError ("Unexpected error: " +:+ "object has no attribute 'get'") None)).
Proof.
  intros ipopt stf engine data Ht Hno.
  unfold optimize_trajectory, optimize_trajectory_try. rewrite Ht. cbn [negb].
  destruct data as [| b | r | s | l | m]; try reflexivity.
  exfalso. apply (Hno m). reflexivity.
Qed.

Lemma non_object_body_answered_500_witness :
  optimize_trajectory ipopt_converging no_str_to_float true (JArr [JNum 1]) =
  ([], mkResponse 500
         (BError ("Unexpected error: " +:+ "object has no attribute 'get'") None)).
Proof.
  apply (non_object_body_answered_500 ipopt_converging no_str_to_float true (JArr [JNum 1])).
  - reflexivity.
  - intros m H. discriminate.
Defined.

Lemma unparsable_string_rejected_witness :
  optimize_trajectory ipopt_converging no_str_to_float true
    (request_with (JNum 100) (JStr "abc") (JNum 0) (JNum 0)) =
  ([], mkResponse 400
         (BError ("Invalid number format: " +:+ ("could not convert string to float: " +:+ "abc"))
                 None)).
Proof.
  apply (unparsable_string_rejected ipopt_converging no_str_to_float true "abc").
  reflexivity.
Defined.
